(** * koppling: the authorization core

    A shallow embedding of the authorization code of the koppling
    application: the RBAC utilities ([lib/rbac.ts]), the credentials
    provider and the callbacks of the NextAuth configuration
    ([lib/auth.ts]), the multi-tenant middleware ([middleware.ts]), the
    auth context helpers ([lib/auth-context.ts]) and the example API route
    ([app/api/example/route.ts]), followed by the properties the
    specification states about them and by further properties of the
    code. *)

From Stdlib Require Import ZArith.
From stdpp Require Import base option list strings gmap.

Local Open Scope string_scope.

(** ** JavaScript primitives used by the sources *)

Module Js.

(** [s.startsWith(p)]. *)
Definition startsWith (s p : string) : bool := String.prefix p s.

(** Truthiness of a [string]: only the empty string is falsy. *)
Definition truthy (s : string) : bool :=
  match s with
  | EmptyString => false
  | String _ _ => true
  end.

(** Truthiness of a [string | null]: [null] and the empty string are
    falsy. *)
Definition truthy_opt (s : option string) : bool :=
  match s with
  | None => false
  | Some s => truthy s
  end.

(** [a === b] on values of type [string | null]. *)
Definition strict_eq (a b : option string) : bool := bool_decide (a = b).

(** [xs.some(f)], [xs.every(f)] and [xs.includes(x)]. *)
Definition some {A} (f : A → bool) (xs : list A) : bool := existsb f xs.
Definition every {A} (f : A → bool) (xs : list A) : bool := forallb f xs.
Definition includes {A} `{EqDecision A} (xs : list A) (x : A) : bool :=
  existsb (λ y, bool_decide (y = x)) xs.

End Js.

(** ** Exceptions *)

Module Exn.

(** What the sources throw and catch: [new Error(message)], and the
    [TypeError] the engine raises on a call through [undefined]. *)
Inductive JsError : Set :=
  | Error (message : string)
  | TypeError.

(** A computation that returns or throws. *)
Inductive Thrown (A : Type) : Type :=
  | Returns (a : A)
  | Throws (e : JsError).
Arguments Returns {A} a.
Arguments Throws {A} e.

(** Sequencing: a throw in the first step is the throw of the whole. *)
#[global] Instance Thrown_bind : MBind Thrown :=
  λ A B f m, match m with
             | Returns a => f a
             | Throws e => Throws e
             end.

End Exn.

(** ** The role enumeration of the generated Prisma client *)

Inductive UserRole : Set :=
  | platform_admin
  | tenant_owner
  | tenant_admin
  | tenant_viewer.

#[global] Instance UserRole_eq_dec : EqDecision UserRole.
Proof. solve_decision. Defined.

(** The string a role is at run time. *)
Definition UserRole_value (r : UserRole) : string :=
  match r with
  | platform_admin => "platform_admin"
  | tenant_owner => "tenant_owner"
  | tenant_admin => "tenant_admin"
  | tenant_viewer => "tenant_viewer"
  end.

(** ** lib/rbac.ts *)

Module Rbac.

Inductive Permission : Set :=
  (* Platform management *)
  | MANAGE_PLATFORM
  | MANAGE_ALL_TENANTS
  | IMPERSONATE_USERS
  | MANAGE_PLATFORM_SETTINGS
  | MANAGE_BLOG
  | MANAGE_CHANGELOG
  (* Tenant management *)
  | MANAGE_TENANT
  | MANAGE_TENANT_USERS
  | MANAGE_INTEGRATIONS
  | MANAGE_SYNC_SETTINGS
  | MANAGE_BILLING
  (* Data operations *)
  | VIEW_ORDERS
  | VIEW_PRODUCTS
  | MANAGE_ORDERS
  | MANAGE_PRODUCTS
  (* Sync operations *)
  | TRIGGER_SYNC
  | VIEW_SYNC_HISTORY
  | ROLLBACK_SYNC
  (* Audit log *)
  | VIEW_AUDIT_LOG.

#[global] Instance Permission_eq_dec : EqDecision Permission.
Proof. solve_decision. Defined.

Definition ROLE_PERMISSIONS (role : UserRole) : list Permission :=
  match role with
  | platform_admin =>
      [ MANAGE_PLATFORM; MANAGE_ALL_TENANTS; IMPERSONATE_USERS;
        MANAGE_PLATFORM_SETTINGS; MANAGE_BLOG; MANAGE_CHANGELOG;
        MANAGE_TENANT; MANAGE_TENANT_USERS; MANAGE_INTEGRATIONS;
        MANAGE_SYNC_SETTINGS; MANAGE_BILLING; VIEW_ORDERS; VIEW_PRODUCTS;
        MANAGE_ORDERS; MANAGE_PRODUCTS; TRIGGER_SYNC; VIEW_SYNC_HISTORY;
        ROLLBACK_SYNC; VIEW_AUDIT_LOG ]
  | tenant_owner =>
      [ MANAGE_TENANT; MANAGE_TENANT_USERS; MANAGE_INTEGRATIONS;
        MANAGE_SYNC_SETTINGS; MANAGE_BILLING; VIEW_ORDERS; VIEW_PRODUCTS;
        MANAGE_ORDERS; MANAGE_PRODUCTS; TRIGGER_SYNC; VIEW_SYNC_HISTORY;
        ROLLBACK_SYNC; VIEW_AUDIT_LOG ]
  | tenant_admin =>
      [ MANAGE_INTEGRATIONS; MANAGE_SYNC_SETTINGS; VIEW_ORDERS;
        VIEW_PRODUCTS; MANAGE_ORDERS; MANAGE_PRODUCTS; TRIGGER_SYNC;
        VIEW_SYNC_HISTORY; ROLLBACK_SYNC; VIEW_AUDIT_LOG ]
  | tenant_viewer =>
      [ VIEW_ORDERS; VIEW_PRODUCTS; VIEW_SYNC_HISTORY; VIEW_AUDIT_LOG ]
  end.

Definition hasPermission (role : UserRole) (permission : Permission) : bool :=
  let permissions := ROLE_PERMISSIONS role in
  Js.includes permissions permission.

Definition hasAnyPermission (role : UserRole) (permissions : list Permission) : bool :=
  Js.some (λ permission, hasPermission role permission) permissions.

Definition hasAllPermissions (role : UserRole) (permissions : list Permission) : bool :=
  Js.every (λ permission, hasPermission role permission) permissions.

Definition getPermissions (role : UserRole) : list Permission :=
  ROLE_PERMISSIONS role.

Definition canManageTenant (role : UserRole) : bool :=
  hasPermission role MANAGE_TENANT.

Definition canManageUsers (role : UserRole) : bool :=
  hasPermission role MANAGE_TENANT_USERS.

Definition isPlatformAdmin (role : UserRole) : bool :=
  bool_decide (role = platform_admin).

Definition isTenantOwner (role : UserRole) : bool :=
  bool_decide (role = tenant_owner).

(** The target is a [string] in the source, the caller's tenant a
    [string | null]; the comparison is [===]. *)
Definition canAccessTenant (userRole : UserRole)
    (userTenantId : option string) (targetTenantId : string) : bool :=
  if isPlatformAdmin userRole then true
  else Js.strict_eq userTenantId (Some targetTenantId).

End Rbac.

(** ** lib/auth.ts: the credentials provider *)

(** The rows the provider reads through Prisma.  Only the columns the
    authorization code touches are kept; [status] columns stay strings, as
    the code only ever compares them with ['active']. *)

Module Tenant.
Record t : Set := mk { id : string; status : string }.
End Tenant.

Module User.
Record t : Set := mk {
  id : string;
  email : string;
  name : option string;
  passwordHash : option string;
  role : UserRole;
  status : string;
  tenantId : option string
}.
End User.

(** The object [authorize] resolves to. *)
Module Identity.
Record t : Set := mk {
  id : string;
  email : string;
  name : option string;
  role : UserRole;
  tenantId : option string
}.
End Identity.

Module Auth.

(** The store behind [prisma]: the [user] and [tenant] tables. *)
Record Database : Set := { users : list User.t; tenants : list Tenant.t }.

(** A user row with its [tenant] relation loaded. *)
Record UserWithTenant : Set := { user : User.t; tenant : option Tenant.t }.

(** [prisma.user.findUnique({ where: { email }, include: { tenant: true } })]:
    the row with that (unique) email, joined with the tenant row its
    [tenantId] points to; the relation is [null] when [tenantId] is. *)
Definition findUnique (db : Database) (email : string) : option UserWithTenant :=
  u ← List.find (λ u, String.eqb (User.email u) email) (users db);
  Some {| user := u;
          tenant := tid ← User.tenantId u;
                    List.find (λ t, String.eqb (Tenant.id t) tid) (tenants db) |}.

(** The [credentials] argument: [Record<"email" | "password", string> | undefined]. *)
Record Credentials : Set := { email : string; password : string }.

(** [!credentials?.email || !credentials?.password] on credentials that
    are there. *)
Definition missing (credentials : Credentials) : bool :=
  negb (Js.truthy (email credentials)) || negb (Js.truthy (password credentials)).

(** Both fields hold a non-empty string. *)
Definition supplied (c : Credentials) : Prop :=
  email c ≠ "" ∧ password c ≠ "".

(** [authorize] either resolves to an identity or throws [new Error(message)]. *)
Inductive Outcome : Set :=
  | Resolve (identity : Identity.t)
  | Throw (message : string).

(** [user.tenant?.status !== 'active'] *)
Definition tenant_status_not_active (tenant : option Tenant.t) : bool :=
  match tenant with
  | None => true (* undefined !== 'active' *)
  | Some t => negb (String.eqb (Tenant.status t) "active")
  end.

(** [compare] stands for [bcrypt.compare(password, digest)]. *)
Definition authorize (compare : string → string → bool) (db : Database)
    (credentials : option Credentials) : Outcome :=
  match credentials with
  | None => Throw "Missing credentials"
  | Some credentials =>
    if missing credentials then Throw "Missing credentials"
    else
      (* Find user by email *)
      match findUnique db (email credentials) with
      | None => Throw "Invalid credentials"
      | Some row =>
        let user := user row in
        match User.passwordHash user with
        | None | Some EmptyString => Throw "Invalid credentials"
        | Some passwordHash =>
          (* Verify password *)
          let isValid := compare (password credentials) passwordHash in
          if negb isValid then Throw "Invalid credentials"
          (* Check if user is active *)
          else if negb (String.eqb (User.status user) "active")
          then Throw "Account is not active"
          (* Check if tenant is active (except for platform admins) *)
          else if negb (bool_decide (User.role user = platform_admin))
                  && tenant_status_not_active (tenant row)
          then Throw "Account is not active"
          else Resolve {| Identity.id := User.id user;
                          Identity.email := User.email user;
                          Identity.name := User.name user;
                          Identity.role := User.role user;
                          Identity.tenantId := User.tenantId user |}
        end
      end
  end.

(** [authOptions.session.maxAge], in seconds. *)
Definition maxAge : Z := 30 * 24 * 60 * 60.

(** The two errors of the specification's taxonomy that the provider
    raises, as the messages it throws them with. *)
Definition InvalidCredentials : string := "Invalid credentials".
Definition AccountInactive : string := "Account is not active".

(** The account has a password digest set, and it is [digest]. *)
Definition digestSet (u : User.t) (digest : string) : Prop :=
  User.passwordHash u = Some digest ∧ digest ≠ "".

(** The specification's reading of the provider, kept apart from the code:
    the five checks (a)-(e) of the Credential Verifier in their order, each
    rule firing only when every earlier check has passed. *)
Inductive authenticate_spec (verify : string → string → bool) (db : Database)
    (email password : string) : Outcome → Prop :=
  | fails_a :
      findUnique db email = None →
      authenticate_spec verify db email password (Throw InvalidCredentials)
  | fails_b row :
      findUnique db email = Some row →
      (∀ digest, ¬ digestSet (user row) digest) →
      authenticate_spec verify db email password (Throw InvalidCredentials)
  | fails_c row digest :
      findUnique db email = Some row →
      digestSet (user row) digest →
      verify password digest = false →
      authenticate_spec verify db email password (Throw InvalidCredentials)
  | fails_d row digest :
      findUnique db email = Some row →
      digestSet (user row) digest →
      verify password digest = true →
      User.status (user row) ≠ "active" →
      authenticate_spec verify db email password (Throw AccountInactive)
  | fails_e row digest :
      findUnique db email = Some row →
      digestSet (user row) digest →
      verify password digest = true →
      User.status (user row) = "active" →
      User.role (user row) ≠ platform_admin →
      (∀ t, tenant row = Some t → Tenant.status t ≠ "active") →
      authenticate_spec verify db email password (Throw AccountInactive)
  | succeeds row digest :
      findUnique db email = Some row →
      digestSet (user row) digest →
      verify password digest = true →
      User.status (user row) = "active" →
      (User.role (user row) = platform_admin ∨
       ∃ t, tenant row = Some t ∧ Tenant.status t = "active") →
      authenticate_spec verify db email password
        (Resolve {| Identity.id := User.id (user row);
                    Identity.email := User.email (user row);
                    Identity.name := User.name (user row);
                    Identity.role := User.role (user row);
                    Identity.tenantId := User.tenantId (user row) |}).

End Auth.

(** ** The session token *)

Module Session.

Record Claims : Set := {
  accountId : string;
  role : UserRole;
  tenantId : option string;
  issuedAt : Z
}.

Record Token : Set := { claims : Claims; signature : string }.

Inductive ReadError : Set := InvalidToken | TokenExpired.

(** Modelled from the spec: the Session Issuer ([issue]) is not part of
    the repository (tokens are minted inside the NextAuth library); the
    spec has it embed [{accountId, role, tenantId, issuedAt}] and sign with the
    process-wide secret.  [sign] stands for the signing primitive and
    times are in seconds, the unit of [Auth.maxAge]. *)
Definition issue (sign : string → Claims → string) (secret : string)
    (identity : Identity.t) (now : Z) : Token :=
  let c := {| accountId := Identity.id identity;
              role := Identity.role identity;
              tenantId := Identity.tenantId identity;
              issuedAt := now |} in
  {| claims := c; signature := sign secret c |}.

(** Modelled from the spec: the Session Reader ([read]) is not part of
    the repository either; the spec has it verify the signature and then check
    [now < issuedAt + 30d], the lifetime being the [maxAge] of the
    source's session options. *)
Definition read (sign : string → Claims → string) (secret : string)
    (token : Token) (now : Z) : Claims + ReadError :=
  if negb (String.eqb (signature token) (sign secret (claims token)))
  then inr InvalidToken
  else if (now <? issuedAt (claims token) + Auth.maxAge)%Z
  then inl (claims token)
  else inr TokenExpired.

End Session.

(** ** middleware.ts *)

(** The decoded session token NextAuth hands to the middleware. *)
Module JWT.
Record t : Set := mk { id : string; role : UserRole; tenantId : option string }.
End JWT.

(** A [Headers] object: a finite map from (lower-cased) header names to
    values; [set] replaces the value of a name. *)
Abbreviation Headers := (gmap string string).

(** A URL built with [new URL(path, req.url)]: it keeps the origin of the
    request, so only its path and its query parameters are recorded. *)
Module URL.
Record t : Set := mk { pathname : string; searchParams : list (string * string) }.
End URL.

(** The two responses the middleware builds: [NextResponse.next(init)],
    whose optional [request.headers] replace the headers of the forwarded
    request, and [NextResponse.redirect(url)]. *)
Module NextResponse.
Inductive t : Type :=
  | next (request_headers : option Headers)
  | redirect (url : URL.t).
End NextResponse.

Module Middleware.

(** What the middleware reads of a request.  [token] is the session token
    as NextAuth decoded it from the session cookie: [None] when the cookie
    is absent or does not verify. *)
Record NextRequest : Type := {
  token : option JWT.t;   (* req.nextauth.token *)
  pathname : string;      (* req.nextUrl.pathname *)
  search : string;        (* req.nextUrl.search *)
  headers : Headers       (* req.headers *)
}.

(** Public routes that don't require authentication *)
Definition PUBLIC_ROUTES : list string :=
  [ "/"; "/auth/signin"; "/auth/signup"; "/auth/error"; "/blog";
    "/changelog"; "/api/auth" ].

(** Admin-only routes (platform_admin role required) *)
Definition ADMIN_ROUTES : list string := [ "/admin" ].

Definition isPublicRoute (pathname : string) : bool :=
  Js.some (λ route, Js.startsWith pathname route) PUBLIC_ROUTES.

Definition isAdminRoute (pathname : string) : bool :=
  Js.some (λ route, Js.startsWith pathname route) ADMIN_ROUTES.

(** The test of the "tenant routes" branch. *)
Definition isTenantRoute (pathname : string) : bool :=
  Js.startsWith pathname "/dashboard" || Js.startsWith pathname "/tenant".

(** "Add tenant context to headers for API routes": the copy of the
    request headers with the token's values set. *)
Definition contextHeaders (token : JWT.t) (req_headers : Headers) : Headers :=
  let requestHeaders := req_headers in
  let requestHeaders :=
    match JWT.tenantId token with
    | Some tenantId =>
        if Js.truthy tenantId then <["x-tenant-id" := tenantId]> requestHeaders
        else requestHeaders
    | None => requestHeaders
    end in
  let requestHeaders := <["x-user-id" := JWT.id token]> requestHeaders in
  <["x-user-role" := UserRole_value (JWT.role token)]> requestHeaders.

Definition middleware (req : NextRequest) : NextResponse.t :=
  (* Allow public routes *)
  if isPublicRoute (pathname req) then NextResponse.next None
  else
    match token req with
    (* Check if user is authenticated *)
    | None =>
        NextResponse.redirect
          (URL.mk "/auth/signin" [("callbackUrl", pathname req)])
    | Some token =>
        (* Check admin routes *)
        if isAdminRoute (pathname req)
           && negb (bool_decide (JWT.role token = platform_admin))
        then NextResponse.redirect (URL.mk "/dashboard" [])
        (* For tenant routes, ensure user has a tenant (except platform admins) *)
        else if isTenantRoute (pathname req)
                && (negb (bool_decide (JWT.role token = platform_admin))
                    && negb (Js.truthy_opt (JWT.tenantId token)))
        then NextResponse.redirect
               (URL.mk "/auth/error" [("error", "AccessDenied")])
        else NextResponse.next (Some (contextHeaders token (headers req)))
    end.

(** [callbacks.authorized]: [({ token }) => !!token]. *)
Definition authorized (token : option JWT.t) : bool :=
  match token with
  | Some _ => true
  | None => false
  end.

(** NextAuth's [withAuth(middleware, { callbacks: { authorized } })], as
    the library documents it: paths of the authentication API itself
    ([/api/auth], the library's own sign-in and error pages, [/_next] and
    [/favicon.ico]) are let through; otherwise the [authorized] callback
    is asked first, the wrapped [middleware] runs only when it answers
    [true], and the request is redirected to the sign-in page with the
    requested URL as [callbackUrl] when it answers [false].  No [pages]
    option is passed to [withAuth] in the source, so the sign-in page is
    the library default. *)
Definition withAuth (middleware : NextRequest → NextResponse.t)
    (authorized : option JWT.t → bool) (req : NextRequest) : NextResponse.t :=
  if Js.startsWith (pathname req) "/api/auth"
     || Js.includes ["/api/auth/signin"; "/api/auth/error"] (pathname req)
     || Js.some (λ p, Js.startsWith (pathname req) p) ["/_next"; "/favicon.ico"]
  then NextResponse.next None
  else if authorized (token req) then middleware req
  else NextResponse.redirect
         (URL.mk "/api/auth/signin" [("callbackUrl", pathname req +:+ search req)]).

(** The default export of [middleware.ts].  Next.js runs it on the paths
    that [config.matcher] selects: all but static assets, paths with a dot
    in them and the authentication API. *)
Definition handler : NextRequest → NextResponse.t :=
  withAuth middleware authorized.

(** The headers of the request a handler downstream receives: those of
    the incoming request unless the response replaces them; nothing is
    forwarded on a redirect. *)
Definition forwardedHeaders (req : NextRequest) (res : NextResponse.t) : option Headers :=
  match res with
  | NextResponse.next None => Some (headers req)
  | NextResponse.next (Some requestHeaders) => Some requestHeaders
  | NextResponse.redirect _ => None
  end.

End Middleware.

(** ** lib/auth-context.ts *)

Module AuthContext.

(** [role] is the header's string, which the source casts to [UserRole]
    unchecked. *)
Record AuthContext : Set := {
  userId : string;
  tenantId : option string;
  role : string
}.

(** Get auth context from request headers (for API routes) *)
Definition getAuthContext (headersList : Headers) : option AuthContext :=
  let userId := headersList !! "x-user-id" in
  let tenantId := headersList !! "x-tenant-id" in
  let role := headersList !! "x-user-role" in
  match userId, role with
  | Some userId, Some role =>
      if negb (Js.truthy userId) || negb (Js.truthy role) then None
      else Some {| userId := userId; tenantId := tenantId; role := role |}
  | _, _ => None
  end.

(** The session object of NextAuth, as [lib/auth.ts] declares it. *)
Record SessionUser : Set := {
  session_id : string;
  session_email : string;
  session_name : option string;
  session_role : UserRole;
  session_tenantId : option string
}.

Record Session : Set := { session_user : option SessionUser }.

(** Get auth context from session (for server components).  [session] is
    what [getServerSession(authOptions)] resolved to. *)
Definition getAuthContextFromSession (session : option Session) : option AuthContext :=
  match session with
  | None => None
  | Some session =>
      match session_user session with
      | None => None
      | Some user =>
          Some {| userId := session_id user;
                  tenantId := session_tenantId user;
                  role := UserRole_value (session_role user) |}
      end
  end.

(** Require authentication - throws error if not authenticated *)
Definition requireAuth (headersList : Headers) : Exn.Thrown AuthContext :=
  let context := getAuthContext headersList in
  match context with
  | None => Exn.Throws (Exn.Error "Unauthorized")
  | Some context => Exn.Returns context
  end.

(** Require tenant - throws error if user doesn't have a tenant *)
Definition requireTenant (headersList : Headers) : Exn.Thrown AuthContext :=
  context ← requireAuth headersList;
  if negb (Js.truthy_opt (tenantId context))
  then Exn.Throws (Exn.Error "No tenant associated with user")
  else Exn.Returns context.

(** Require specific role(s) - throws error if user doesn't have required
    role.  The roles are the strings they are at run time. *)
Definition requireRole (roles : list UserRole) (headersList : Headers)
    : Exn.Thrown AuthContext :=
  context ← requireAuth headersList;
  if negb (Js.includes (UserRole_value <$> roles) (role context))
  then Exn.Throws (Exn.Error "Insufficient permissions")
  else Exn.Returns context.

(** Require platform admin role *)
Definition requirePlatformAdmin (headersList : Headers) : Exn.Thrown AuthContext :=
  requireRole [platform_admin] headersList.

End AuthContext.

(** ** lib/auth.ts: the callbacks *)

Module AuthCallbacks.
Import AuthContext.

(** [callbacks.jwt]: [user] is there on the call that follows a sign-in
    and [undefined] on every later call. *)
Definition jwt (token : JWT.t) (user : option Identity.t) : JWT.t :=
  match user with
  | Some user =>
      {| JWT.id := Identity.id user;
         JWT.role := Identity.role user;
         JWT.tenantId := Identity.tenantId user |}
  | None => token
  end.

(** [callbacks.session] *)
Definition session (session : Session) (token : JWT.t) : Session :=
  match session_user session with
  | Some user =>
      {| session_user :=
           Some {| session_id := JWT.id token;
                   session_email := session_email user;
                   session_name := session_name user;
                   session_role := JWT.role token;
                   session_tenantId := JWT.tenantId token |} |}
  | None => session
  end.

End AuthCallbacks.

(** ** app/api/example/route.ts *)

Module ExampleRoute.
Import AuthContext.

(** The role a string names, if any: the own keys of [ROLE_PERMISSIONS]. *)
Definition UserRole_of_string (s : string) : option UserRole :=
  if String.eqb s "platform_admin" then Some platform_admin
  else if String.eqb s "tenant_owner" then Some tenant_owner
  else if String.eqb s "tenant_admin" then Some tenant_admin
  else if String.eqb s "tenant_viewer" then Some tenant_viewer
  else None.

(** [hasPermission(auth.role, permission)] on the role string of a context:
    for a string that is no key of [ROLE_PERMISSIONS] the lookup yields
    [undefined], or an inherited member of [Object.prototype] that has no
    [includes], and the call [permissions.includes(...)] raises a
    [TypeError]. *)
Definition hasPermission (role : string) (permission : Rbac.Permission)
    : Exn.Thrown bool :=
  match UserRole_of_string role with
  | Some role => Exn.Returns (Rbac.hasPermission role permission)
  | None => Exn.Throws Exn.TypeError
  end.

(** The JSON bodies the route answers with. *)
Inductive Body : Set :=
  | ErrorBody (error : string)
  | SuccessBody (message : string) (user : AuthContext).

Record Response : Set := { status : nat; body : Body }.

(** [NextResponse.json(body)] answers 200 unless a status is given. *)
Definition json (body : Body) (status : option nat) : Response :=
  {| status := default 200 status; body := body |}.

(** The [try] block of [GET]. *)
Definition GET_try (headersList : Headers) : Exn.Thrown Response :=
  (* Require authentication and tenant *)
  auth ← requireTenant headersList;
  (* Check permissions *)
  allowed ← hasPermission (role auth) Rbac.VIEW_ORDERS;
  if negb allowed
  then Exn.Returns (json (ErrorBody "Insufficient permissions") (Some 403))
  else Exn.Returns (json (SuccessBody "Success" auth) None).

(** [GET], with its [catch]. *)
Definition GET (headersList : Headers) : Response :=
  match GET_try headersList with
  | Exn.Returns response => response
  | Exn.Throws error =>
      match error with
      | Exn.Error "Unauthorized" => json (ErrorBody "Unauthorized") (Some 401)
      | _ => json (ErrorBody "Internal server error") (Some 500)
      end
  end.

End ExampleRoute.

(** ** Sample data for the scenarios *)

Module Scenario.

(** A stand-in for bcrypt: the digest of [pw] is ["digest:" ++ pw]. *)
Definition compare (password digest : string) : bool :=
  String.eqb digest ("digest:" +:+ password).

Definition alice : User.t :=
  User.mk "u1" "alice@example.com" (Some "Alice") (Some "digest:secret")
          tenant_owner "active" (Some "T1").

(** An active viewer account that belongs to no tenant. *)
Definition bob : User.t :=
  User.mk "u2" "bob@example.com" None (Some "digest:hunter2")
          tenant_viewer "active" None.

Definition db : Auth.Database :=
  {| Auth.users := [alice; bob];
     Auth.tenants := [Tenant.mk "T1" "active"] |}.

(** Requests: a visitor without a session asking for the blog; a tenant
    admin asking for an admin page; a viewer without a tenant asking for
    the dashboard, and asking for an API route while sending context
    headers of his own making. *)
Definition viewer_without_tenant : JWT.t := JWT.mk "u2" tenant_viewer None.

Definition blog_request : Middleware.NextRequest :=
  {| Middleware.token := None;
     Middleware.pathname := "/blog";
     Middleware.search := "";
     Middleware.headers := ∅ |}.

Definition admin_request : Middleware.NextRequest :=
  {| Middleware.token := Some (JWT.mk "u3" tenant_admin (Some "T1"));
     Middleware.pathname := "/admin/tenants";
     Middleware.search := "";
     Middleware.headers := ∅ |}.

Definition dashboard_request : Middleware.NextRequest :=
  {| Middleware.token := Some viewer_without_tenant;
     Middleware.pathname := "/dashboard";
     Middleware.search := "";
     Middleware.headers := ∅ |}.

Definition spoofed_headers : Headers :=
  <["x-user-id" := "u1"]>
    (<["x-tenant-id" := "T1"]> (<["x-user-role" := "platform_admin"]> ∅)).

Definition spoofing_request : Middleware.NextRequest :=
  {| Middleware.token := Some viewer_without_tenant;
     Middleware.pathname := "/api/example";
     Middleware.search := "";
     Middleware.headers := spoofed_headers |}.

End Scenario.

(** More sample data: a platform admin without a tenant, a tenant admin of
    a suspended tenant, an inactive viewer; the owner's token, a session as
    NextAuth hands it to the session callback, and request headers without
    a tenant id. *)
Module Sample.

Definition root : User.t :=
  User.mk "u0" "root@example.com" None (Some "digest:toor")
          platform_admin "active" None.

Definition carol : User.t :=
  User.mk "u4" "carol@example.com" (Some "Carol") (Some "digest:pass")
          tenant_admin "active" (Some "T9").

Definition dave : User.t :=
  User.mk "u5" "dave@example.com" None (Some "digest:dave")
          tenant_viewer "inactive" (Some "T1").

Definition db : Auth.Database :=
  {| Auth.users := [root; carol; dave];
     Auth.tenants := [Tenant.mk "T9" "suspended"; Tenant.mk "T1" "active"] |}.

Definition owner_identity : Identity.t :=
  Identity.mk "u1" "alice@example.com" (Some "Alice") tenant_owner (Some "T1").

Definition owner_token : JWT.t := JWT.mk "u1" tenant_owner (Some "T1").

Definition stale_token : JWT.t := JWT.mk "u9" tenant_viewer None.

Definition fresh_session : AuthContext.Session :=
  {| AuthContext.session_user :=
       Some {| AuthContext.session_id := "";
               AuthContext.session_email := "alice@example.com";
               AuthContext.session_name := Some "Alice";
               AuthContext.session_role := tenant_viewer;
               AuthContext.session_tenantId := None |} |}.

Definition headers_without_tenant : Headers :=
  <["x-user-id" := "u1"]> (<["x-user-role" := "tenant_owner"]> ∅).

End Sample.

(** * Properties *)

(** ** The permission registry and the tenant isolation guard *)

Section RbacProperties.
Import Rbac.

Lemma includes_elem_of {A} `{EqDecision A} (xs : list A) (x : A) :
  Js.includes xs x = true ↔ x ∈ xs.
Proof.
  unfold Js.includes. rewrite existsb_exists. split.
  - intros (y & Hy%list_elem_of_In & Heq%bool_decide_eq_true). by subst.
  - intros Hx. exists x. split; [by apply list_elem_of_In | by apply bool_decide_eq_true].
Qed.

Lemma hasPermission_elem_of role permission :
  hasPermission role permission = true ↔ permission ∈ getPermissions role.
Proof. apply includes_elem_of. Qed.

Lemma getPermissions_subseteq r1 r2 :
  (∀ p, hasPermission r1 p = true → hasPermission r2 p = true) →
  getPermissions r1 ⊆ getPermissions r2.
Proof.
  intros Hb p. rewrite <- !hasPermission_elem_of. apply Hb.
Qed.

(** C1. The tenant isolation guard: a platform admin may access every
    target tenant whatever the caller's tenant (a null caller included);
    any other role may access the target exactly when the caller's tenant
    is that very tenant, so never with a null caller tenant. *)
Theorem canAccessTenant_guard role (caller : option string) (target : string) :
  (role = platform_admin → canAccessTenant role caller target = true) ∧
  (role ≠ platform_admin →
     (canAccessTenant role caller target = true ↔ caller = Some target)) ∧
  (role ≠ platform_admin → caller = None →
     canAccessTenant role caller target = false).
Proof.
  unfold canAccessTenant, isPlatformAdmin, Js.strict_eq.
  split; [| split].
  - intros ->. reflexivity.
  - intros Hrole. rewrite (bool_decide_eq_false_2 _ Hrole).
    apply bool_decide_eq_true.
  - intros Hrole ->. rewrite (bool_decide_eq_false_2 _ Hrole).
    by apply bool_decide_eq_false_2.
Qed.

(** C4. The permission lists are nested viewer ⊆ admin ⊆ platform admin
    and admin ⊆ owner ⊆ platform admin, and the owner holds
    MANAGE_TENANT_USERS and MANAGE_BILLING, which the admin lacks. *)
Theorem permissions_nested :
  getPermissions tenant_viewer ⊆ getPermissions tenant_admin ∧
  getPermissions tenant_admin ⊆ getPermissions platform_admin ∧
  getPermissions tenant_admin ⊆ getPermissions tenant_owner ∧
  getPermissions tenant_owner ⊆ getPermissions platform_admin ∧
  (MANAGE_TENANT_USERS ∈ getPermissions tenant_owner ∧
   MANAGE_TENANT_USERS ∉ getPermissions tenant_admin) ∧
  (MANAGE_BILLING ∈ getPermissions tenant_owner ∧
   MANAGE_BILLING ∉ getPermissions tenant_admin).
Proof.
  repeat split;
    try (apply getPermissions_subseteq; intros []; vm_compute; congruence);
    try (apply hasPermission_elem_of; reflexivity);
    rewrite <- hasPermission_elem_of; vm_compute; congruence.
Qed.

(** C10. [hasAnyPermission] holds exactly when some listed permission is
    among the role's, [hasAllPermissions] exactly when all of them are;
    on the empty list the first is false and the second true, for every
    role. *)
Theorem hasAny_hasAll_membership role (ps : list Permission) :
  (hasAnyPermission role ps = true ↔ ∃ p, p ∈ ps ∧ p ∈ getPermissions role) ∧
  (hasAllPermissions role ps = true ↔ ∀ p, p ∈ ps → p ∈ getPermissions role) ∧
  hasAnyPermission role [] = false ∧
  hasAllPermissions role [] = true.
Proof.
  unfold hasAnyPermission, hasAllPermissions, Js.some, Js.every.
  repeat split; try reflexivity.
  - intros (p & Hp & Hhas)%existsb_exists. exists p.
    split; [by apply list_elem_of_In | by apply hasPermission_elem_of].
  - intros (p & Hp & Hhas). apply existsb_exists. exists p.
    split; [by apply list_elem_of_In | by apply hasPermission_elem_of].
  - intros Hall p Hp. apply hasPermission_elem_of.
    rewrite forallb_forall in Hall. by apply Hall, list_elem_of_In.
  - intros Hall. apply forallb_forall. intros p Hp.
    by apply hasPermission_elem_of, Hall, list_elem_of_In.
Qed.

End RbacProperties.

(** A platform admin with no tenant reaches tenant "T2"; a tenant admin of
    "T1" reaches "T1" but a viewer with no tenant does not. *)
Lemma canAccessTenant_guard_witness :
  Rbac.canAccessTenant platform_admin None "T2" = true ∧
  Rbac.canAccessTenant tenant_admin (Some "T1") "T1" = true ∧
  Rbac.canAccessTenant tenant_viewer None "T1" = false.
Proof.
  split; [| split].
  - apply (proj1 (canAccessTenant_guard platform_admin None "T2")). reflexivity.
  - apply (proj1 (proj2 (canAccessTenant_guard tenant_admin (Some "T1") "T1")));
      [intros H; discriminate H | reflexivity].
  - apply (proj2 (proj2 (canAccessTenant_guard tenant_viewer None "T1")));
      [intros H; discriminate H | reflexivity].
Defined.

(** ** The credentials provider *)

Section AuthProperties.
Import Auth.

(** The password check, [bcrypt.compare], is left abstract. *)
Variable compare : string → string → bool.
Variable db : Database.

Lemma truthy_nonempty s : Js.truthy s = true ↔ s ≠ "".
Proof. destruct s; simpl; split; congruence. Qed.

Lemma supplied_guard c : supplied c → missing c = false.
Proof.
  intros [He Hp]. apply truthy_nonempty in He, Hp. unfold missing.
  by rewrite He, Hp.
Qed.

Lemma not_supplied_guard c : ¬ supplied c → missing c = true.
Proof.
  intros Hn. unfold supplied in Hn. unfold missing.
  destruct (email c), (password c); simpl; try reflexivity.
  exfalso. apply Hn. split; discriminate.
Qed.

Lemma missing_false_supplied c : missing c = false → supplied c.
Proof.
  unfold missing, supplied. destruct (email c), (password c); simpl;
    try discriminate. intros _. split; discriminate.
Qed.

Lemma authorize_missing c :
  missing c = true → authorize compare db (Some c) = Throw "Missing credentials".
Proof. intros H. unfold authorize. by rewrite H. Qed.

(** The relation loaded with a user whose [tenantId] is null is null. *)
Lemma findUnique_no_tenant email row :
  findUnique db email = Some row →
  User.tenantId (user row) = None →
  tenant row = None.
Proof.
  unfold findUnique. destruct (List.find _ (users db)) as [u|]; simpl; [| done].
  intros [= <-]. simpl. intros ->. reflexivity.
Qed.

Lemma tenant_status_not_active_false o :
  tenant_status_not_active o = false ↔
  ∃ t, o = Some t ∧ Tenant.status t = "active".
Proof.
  destruct o as [t|]; simpl.
  - rewrite negb_false_iff, String.eqb_eq. split.
    + intros Ht. by exists t.
    + by intros (t' & [= <-] & Ht).
  - split; [discriminate | by intros (t & [=] & _)].
Qed.

Lemma tenant_status_not_active_true o :
  tenant_status_not_active o = true ↔
  ∀ t, o = Some t → Tenant.status t ≠ "active".
Proof.
  destruct o as [t|]; simpl.
  - rewrite negb_true_iff, String.eqb_neq. split.
    + by intros Ht t' [= <-].
    + intros Ht. by apply Ht.
  - split; [by intros _ t [=] | reflexivity].
Qed.

(** What [authorize] does once the credentials are there, the row is
    found and its digest is set: the three remaining checks. *)
Lemma authorize_found c row digest :
  supplied c →
  findUnique db (email c) = Some row →
  digestSet (user row) digest →
  authorize compare db (Some c) =
    if negb (compare (password c) digest) then Throw "Invalid credentials"
    else if negb (String.eqb (User.status (user row)) "active")
    then Throw "Account is not active"
    else if negb (bool_decide (User.role (user row) = platform_admin))
            && tenant_status_not_active (tenant row)
    then Throw "Account is not active"
    else Resolve {| Identity.id := User.id (user row);
                    Identity.email := User.email (user row);
                    Identity.name := User.name (user row);
                    Identity.role := User.role (user row);
                    Identity.tenantId := User.tenantId (user row) |}.
Proof.
  intros Hc Hrow [Hh Hne]. unfold authorize.
  rewrite (supplied_guard _ Hc), Hrow. simpl. rewrite Hh.
  destruct digest; [done | reflexivity].
Qed.

Lemma authorize_no_digest c row :
  supplied c →
  findUnique db (email c) = Some row →
  (∀ digest, ¬ digestSet (user row) digest) →
  authorize compare db (Some c) = Throw "Invalid credentials".
Proof.
  intros Hc Hrow Hno. unfold authorize.
  rewrite (supplied_guard _ Hc), Hrow. simpl.
  destruct (User.passwordHash (user row)) as [[|a h]|] eqn:Hh; try reflexivity.
  exfalso. apply (Hno (String a h)). by split.
Qed.

Lemma authorize_unknown c :
  supplied c →
  findUnique db (email c) = None →
  authorize compare db (Some c) = Throw "Invalid credentials".
Proof.
  intros Hc Hrow. unfold authorize. by rewrite (supplied_guard _ Hc), Hrow.
Qed.

Lemma digestSet_dec (u : User.t) :
  (∃ digest, digestSet u digest) ∨ (∀ digest, ¬ digestSet u digest).
Proof.
  unfold digestSet. destruct (User.passwordHash u) as [[|a h]|].
  - right. intros d [[= <-] Hne]. by apply Hne.
  - left. by exists (String a h).
  - right. by intros d [[=] _].
Qed.


Lemma authorize_wrong_password c row :
  supplied c →
  findUnique db (email c) = Some row →
  (∀ digest, digestSet (user row) digest → compare (password c) digest = false) →
  authorize compare db (Some c) = Throw "Invalid credentials".
Proof.
  intros Hc Hknown Hwrong.
  destruct (digestSet_dec (user row)) as [[digest Hd] | Hno].
  - rewrite (authorize_found _ _ _ Hc Hknown Hd). by rewrite (Hwrong _ Hd).
  - by apply authorize_no_digest with row.
Qed.

(** C6 (as amended). With a non-empty email and a non-empty password in
    each, an attempt with an unknown email and an attempt with a known
    email and a password that does not verify end in the same error, the
    one thrown as "Invalid credentials"; an attempt of either kind with an
    empty email or an empty password ends in "Missing credentials"
    instead. *)
Theorem unknown_email_wrong_password_same_error (c1 c2 : Credentials) row :
  findUnique db (email c1) = None →
  findUnique db (email c2) = Some row →
  (∀ digest, digestSet (user row) digest → compare (password c2) digest = false) →
  (supplied c1 → supplied c2 →
     authorize compare db (Some c1) = authorize compare db (Some c2) ∧
     authorize compare db (Some c2) = Throw "Invalid credentials") ∧
  (¬ supplied c1 → authorize compare db (Some c1) = Throw "Missing credentials") ∧
  (¬ supplied c2 → authorize compare db (Some c2) = Throw "Missing credentials").
Proof.
  intros Hunknown Hknown Hwrong. split; [| split].
  - intros H1 H2.
    rewrite (authorize_unknown _ H1 Hunknown).
    by rewrite (authorize_wrong_password _ _ H2 Hknown Hwrong).
  - intros Hn. by apply authorize_missing, not_supplied_guard.
  - intros Hn. by apply authorize_missing, not_supplied_guard.
Qed.

(** C7 (what the code does). An active account with a correct password, a
    role other than platform admin and a null [tenantId] is never signed
    in: no tenant row is loaded for it, the tenant check reads the missing
    tenant as not active, and the attempt, made with a non-empty email and
    password, is refused with "Account is not active". *)
Theorem null_tenant_account_rejected (c : Credentials) row digest :
  findUnique db (email c) = Some row →
  digestSet (user row) digest →
  compare (password c) digest = true →
  User.status (user row) = "active" →
  User.role (user row) ≠ platform_admin →
  User.tenantId (user row) = None →
  (∀ identity, authorize compare db (Some c) ≠ Resolve identity) ∧
  (supplied c → authorize compare db (Some c) = Throw "Account is not active").
Proof.
  intros Hrow Hd Hv Hs Hr Ht.
  assert (Hsup : supplied c →
                 authorize compare db (Some c) = Throw "Account is not active").
  { intros Hc. rewrite (authorize_found _ _ _ Hc Hrow Hd), Hv. simpl.
    apply String.eqb_eq in Hs. rewrite Hs. simpl.
    rewrite (bool_decide_eq_false_2 _ Hr).
    by rewrite (findUnique_no_tenant _ _ Hrow Ht). }
  split; [| exact Hsup].
  intros identity Heq. destruct (missing c) eqn:Hm.
  - rewrite (authorize_missing _ Hm) in Heq. discriminate Heq.
  - rewrite (Hsup (missing_false_supplied _ Hm)) in Heq. discriminate Heq.
Qed.

End AuthProperties.

(** The rules (a)-(e) leave one outcome only. *)
Lemma authenticate_spec_functional verify db email password o1 o2 :
  Auth.authenticate_spec verify db email password o1 →
  Auth.authenticate_spec verify db email password o2 →
  o1 = o2.
Proof.
  assert (Hdig : ∀ u d1 d2, Auth.digestSet u d1 → Auth.digestSet u d2 → d1 = d2).
  { intros u d1 d2 [H1 _] [H2 _]. congruence. }
  intros H1 H2.
  inversion H1; subst; inversion H2; subst; try reflexivity;
    repeat match goal with
    | Ha : Auth.findUnique _ _ = Some ?r1, Hb : Auth.findUnique _ _ = Some ?r2 |- _ =>
        assert (r1 = r2) by congruence; subst r2; clear Hb
    | Ha : Auth.findUnique _ _ = None, Hb : Auth.findUnique _ _ = Some _ |- _ =>
        congruence
    | Ha : Auth.digestSet ?u ?d1, Hb : Auth.digestSet ?u ?d2 |- _ =>
        assert (d1 = d2) by (by apply (Hdig u)); subst d2; clear Hb
    | Ha : ∀ d, ¬ Auth.digestSet ?u d, Hb : Auth.digestSet ?u _ |- _ =>
        by destruct (Ha _ Hb)
    end;
    try congruence; try reflexivity.
  all: match goal with
       | Hor : _ ∨ _ |- _ => destruct Hor as [Hadm | (t & Ht & Hact)]
       end; try congruence.
  all: match goal with
       | Hall : ∀ t, _ = Some t → _ ≠ _ |- _ => by destruct (Hall _ Ht)
       end.
Qed.



(** The same submission against a store without the account and against a
    store where the account exists and the password is wrong: the outcome
    is the same, so it does not tell the two stores apart. *)
Lemma account_existence_not_revealed compare db1 db2 (c : Auth.Credentials) row :
  Auth.findUnique db1 (Auth.email c) = None →
  Auth.findUnique db2 (Auth.email c) = Some row →
  (∀ digest, Auth.digestSet (Auth.user row) digest →
             compare (Auth.password c) digest = false) →
  Auth.authorize compare db1 (Some c) = Auth.authorize compare db2 (Some c).
Proof.
  intros Hunknown Hknown Hwrong.
  destruct (Auth.missing c) eqn:Hm.
  - by rewrite !authorize_missing.
  - apply missing_false_supplied in Hm.
    rewrite (authorize_unknown _ _ _ Hm Hunknown).
    by rewrite (authorize_wrong_password _ _ _ _ Hm Hknown Hwrong).
Qed.

(** Mallory's guess at an unknown address and her guess at Alice's address
    come back alike. *)
Lemma unknown_email_wrong_password_same_error_witness :
  Auth.authorize Scenario.compare Scenario.db
    (Some {| Auth.email := "nobody@example.com"; Auth.password := "guess" |})
  = Auth.authorize Scenario.compare Scenario.db
    (Some {| Auth.email := "alice@example.com"; Auth.password := "guess" |})
  ∧ Auth.authorize Scenario.compare Scenario.db
      (Some {| Auth.email := "alice@example.com"; Auth.password := "guess" |})
    = Auth.Throw "Invalid credentials".
Proof.
  pose proof (unknown_email_wrong_password_same_error Scenario.compare Scenario.db
                {| Auth.email := "nobody@example.com"; Auth.password := "guess" |}
                {| Auth.email := "alice@example.com"; Auth.password := "guess" |}
                {| Auth.user := Scenario.alice;
                   Auth.tenant := Some (Tenant.mk "T1" "active") |}) as Hthm.
  apply Hthm.
  - reflexivity.
  - reflexivity.
  - intros digest [Hd _]. injection Hd as <-. reflexivity.
  - split; discriminate.
  - split; discriminate.
Defined.

(** C6, as the claim has it, fails when one of the two attempts leaves the
    password empty: nobody's address with a guess is answered "Invalid
    credentials", Alice's address with the empty password, which does not
    verify, is answered "Missing credentials". *)
Lemma unknown_email_wrong_password_counterexample :
  let c1 := {| Auth.email := "nobody@example.com"; Auth.password := "guess" |} in
  let c2 := {| Auth.email := "alice@example.com"; Auth.password := "" |} in
  Auth.findUnique Scenario.db (Auth.email c1) = None ∧
  (∃ row, Auth.findUnique Scenario.db (Auth.email c2) = Some row ∧
          Auth.digestSet (Auth.user row) "digest:secret" ∧
          Scenario.compare (Auth.password c2) "digest:secret" = false) ∧
  Auth.authorize Scenario.compare Scenario.db (Some c1) = Auth.Throw "Invalid credentials" ∧
  Auth.authorize Scenario.compare Scenario.db (Some c2) = Auth.Throw "Missing credentials" ∧
  Auth.authorize Scenario.compare Scenario.db (Some c1)
  ≠ Auth.authorize Scenario.compare Scenario.db (Some c2).
Proof.
  simpl. split; [reflexivity |]. split.
  { eexists. split; [reflexivity |]. split; [| reflexivity].
    split; [reflexivity | discriminate]. }
  split; [reflexivity |]. split; [reflexivity |]. discriminate.
Qed.

(** Bob, step by step: his account is active, his password verifies, he is
    a viewer and has no tenant, and he is refused. *)
Lemma null_tenant_sign_in_counterexample :
  let c := {| Auth.email := "bob@example.com"; Auth.password := "hunter2" |} in
  (∃ row, Auth.findUnique Scenario.db (Auth.email c) = Some row ∧
          Auth.digestSet (Auth.user row) "digest:hunter2" ∧
          Scenario.compare (Auth.password c) "digest:hunter2" = true ∧
          User.status (Auth.user row) = "active" ∧
          User.role (Auth.user row) ≠ platform_admin ∧
          User.tenantId (Auth.user row) = None) ∧
  Auth.authorize Scenario.compare Scenario.db (Some c)
  = Auth.Throw "Account is not active" ∧
  ¬ ∃ identity,
      Auth.authorize Scenario.compare Scenario.db (Some c) = Auth.Resolve identity.
Proof.
  simpl. split; [| split].
  - eexists. split; [reflexivity |]. split; [split; [reflexivity | discriminate] |].
    split; [reflexivity |]. split; [reflexivity |]. split; [discriminate | reflexivity].
  - reflexivity.
  - intros [identity H]. discriminate H.
Qed.

(** Bob again, through the theorem. *)
Lemma null_tenant_account_rejected_witness :
  (∀ identity,
     Auth.authorize Scenario.compare Scenario.db
       (Some {| Auth.email := "bob@example.com"; Auth.password := "hunter2" |})
     ≠ Auth.Resolve identity) ∧
  Auth.authorize Scenario.compare Scenario.db
    (Some {| Auth.email := "bob@example.com"; Auth.password := "hunter2" |})
  = Auth.Throw "Account is not active".
Proof.
  assert (Hbob :
    (∀ identity,
       Auth.authorize Scenario.compare Scenario.db
         (Some {| Auth.email := "bob@example.com"; Auth.password := "hunter2" |})
       ≠ Auth.Resolve identity) ∧
    (Auth.supplied {| Auth.email := "bob@example.com"; Auth.password := "hunter2" |} →
     Auth.authorize Scenario.compare Scenario.db
       (Some {| Auth.email := "bob@example.com"; Auth.password := "hunter2" |})
     = Auth.Throw "Account is not active")).
  { apply (null_tenant_account_rejected Scenario.compare Scenario.db
             {| Auth.email := "bob@example.com"; Auth.password := "hunter2" |}
             {| Auth.user := Scenario.bob; Auth.tenant := None |}
             "digest:hunter2").
    - reflexivity.
    - split; [reflexivity | discriminate].
    - reflexivity.
    - reflexivity.
    - discriminate.
    - reflexivity. }
  split; [exact (proj1 Hbob) |].
  apply (proj2 Hbob). split; discriminate.
Defined.

(** ** The session token *)

Section SessionProperties.
Import Session.
Local Open Scope Z_scope.

(** The signing primitive and the process-wide secret. *)
Variable sign : string → Claims → string.
Variable secret : string.

Lemma read_issue identity (t0 now : Z) :
  read sign secret (issue sign secret identity t0) now =
    if now <? t0 + Auth.maxAge
    then inl (claims (issue sign secret identity t0))
    else inr TokenExpired.
Proof. unfold read, issue. simpl. by rewrite String.eqb_refl. Qed.

(** C9. A token issued at [t0] reads back at every time before
    [t0 + 30 days] and is refused as expired at every time after it; the
    bound depends on the time of issue alone.  In particular the token
    reads at [t0 + 29d23h] and is expired at [t0 + 30d1s].  Times are in
    seconds. *)
Theorem token_expires_30_days_after_issue identity (t0 now : Z) :
  (now < t0 + 30 * 24 * 60 * 60 →
     read sign secret (issue sign secret identity t0) now
     = inl (claims (issue sign secret identity t0))) ∧
  (t0 + 30 * 24 * 60 * 60 < now →
     read sign secret (issue sign secret identity t0) now = inr TokenExpired) ∧
  read sign secret (issue sign secret identity t0) (t0 + (29 * 24 + 23) * 60 * 60)
  = inl (claims (issue sign secret identity t0)) ∧
  read sign secret (issue sign secret identity t0) (t0 + 30 * 24 * 60 * 60 + 1)
  = inr TokenExpired.
Proof.
  rewrite !read_issue. unfold Auth.maxAge.
  split; [| split; [| split]].
  - intros Hlt. by rewrite (proj2 (Z.ltb_lt _ _) Hlt).
  - intros Hgt. rewrite (proj2 (Z.ltb_ge _ _)); [done | lia].
  - rewrite (proj2 (Z.ltb_lt _ _)); [done | lia].
  - rewrite (proj2 (Z.ltb_ge _ _)); [done | lia].
Qed.

End SessionProperties.

(** Alice's token of time 1000 reads at time 2000 and is expired at time
    3000000. *)
Lemma token_expires_30_days_after_issue_witness :
  let sign := λ (secret : string) (c : Session.Claims), secret +:+ Session.accountId c in
  let identity := Identity.mk "u1" "alice@example.com" (Some "Alice") tenant_owner (Some "T1") in
  Session.read sign "s3cret" (Session.issue sign "s3cret" identity 1000) 2000
  = inl (Session.claims (Session.issue sign "s3cret" identity 1000)) ∧
  Session.read sign "s3cret" (Session.issue sign "s3cret" identity 1000) 3000000
  = inr Session.TokenExpired.
Proof.
  intros sign identity. split.
  - apply (proj1 (token_expires_30_days_after_issue sign "s3cret" identity 1000 2000)).
    reflexivity.
  - apply (proj1 (proj2 (token_expires_30_days_after_issue sign "s3cret" identity
                           1000 3000000))).
    reflexivity.
Defined.

(** ** The middleware *)

Section MiddlewareProperties.
Import Middleware.

(** A path that starts with a non-empty route starts with the route's
    first character. *)
Lemma startsWith_first a route (pathname : string) :
  Js.startsWith pathname (String a route) = true →
  Js.startsWith pathname (String a EmptyString) = true.
Proof.
  unfold Js.startsWith. destruct pathname as [|b rest]; simpl; [done |].
  destruct (Ascii.ascii_dec a b); [| done]. by destruct rest.
Qed.

(** ["/"] heads [PUBLIC_ROUTES], and [startsWith] makes it a prefix of
    every path that begins with a slash. *)
Lemma isPublicRoute_slash pathname :
  Js.startsWith pathname "/" = true → isPublicRoute pathname = true.
Proof. intros H. unfold isPublicRoute, PUBLIC_ROUTES, Js.some. simpl. by rewrite H. Qed.

Lemma isAdminRoute_public pathname :
  isAdminRoute pathname = true → isPublicRoute pathname = true.
Proof.
  unfold isAdminRoute, ADMIN_ROUTES, Js.some. simpl. rewrite orb_false_r.
  intros H. by eapply isPublicRoute_slash, startsWith_first.
Qed.

Lemma isTenantRoute_public pathname :
  isTenantRoute pathname = true → isPublicRoute pathname = true.
Proof.
  unfold isTenantRoute. intros [H | H]%orb_true_iff;
    by eapply isPublicRoute_slash, startsWith_first.
Qed.

(** The wrapped function on its own lets every public path through,
    token or not, and leaves the request as it came. *)
Lemma middleware_public req :
  isPublicRoute (pathname req) = true →
  middleware req = NextResponse.next None.
Proof. intros H. unfold middleware. by rewrite H. Qed.

(** Whatever [withAuth] lets through unasked is answered like a public
    route is. *)
Lemma handler_authorized req :
  authorized (token req) = true →
  isPublicRoute (pathname req) = true →
  handler req = NextResponse.next None.
Proof.
  intros Hauth Hpub. unfold handler, withAuth. rewrite Hauth.
  rewrite (middleware_public _ Hpub). by destruct (_ || _).
Qed.

(** Past the public check and both gates the request is forwarded with
    the headers [contextHeaders] builds. *)
Lemma middleware_injects req tok :
  isPublicRoute (pathname req) = false →
  token req = Some tok →
  isAdminRoute (pathname req) && negb (bool_decide (JWT.role tok = platform_admin)) = false →
  isTenantRoute (pathname req)
    && (negb (bool_decide (JWT.role tok = platform_admin))
        && negb (Js.truthy_opt (JWT.tenantId tok))) = false →
  middleware req = NextResponse.next (Some (contextHeaders tok (headers req))).
Proof.
  intros Hpub Htok Hadm Hten. unfold middleware. by rewrite Hpub, Htok, Hadm, Hten.
Qed.

(** [contextHeaders] always sets the user id and the role. *)
Lemma contextHeaders_user tok (h : gmap string string) :
  contextHeaders tok h !! "x-user-id" = Some (JWT.id tok) ∧
  contextHeaders tok h !! "x-user-role" = Some (UserRole_value (JWT.role tok)).
Proof.
  unfold contextHeaders. split.
  - rewrite lookup_insert_ne by done. by rewrite lookup_insert_eq.
  - by rewrite lookup_insert_eq.
Qed.

(** It sets the tenant id when the token has a non-empty one... *)
Lemma contextHeaders_tenant tok (h : gmap string string) tenantId :
  JWT.tenantId tok = Some tenantId →
  Js.truthy tenantId = true →
  contextHeaders tok h !! "x-tenant-id" = Some tenantId.
Proof.
  intros Ht Hne. unfold contextHeaders. rewrite Ht, Hne.
  rewrite !lookup_insert_ne by done. by rewrite lookup_insert_eq.
Qed.

(** ... and leaves the header as the client sent it when it has none. *)
Lemma contextHeaders_no_tenant tok (h : gmap string string) :
  Js.truthy_opt (JWT.tenantId tok) = false →
  contextHeaders tok h !! "x-tenant-id" = h !! "x-tenant-id".
Proof.
  intros Ht. unfold contextHeaders.
  destruct (JWT.tenantId tok) as [t|]; simpl in *; [rewrite Ht |];
    by rewrite !lookup_insert_ne by done.
Qed.

(** C2 (what the code does). The wrapped function lets a request for a
    public path through.  But a request without a valid session token for a
    public path outside the authentication API does not reach it:
    [withAuth] asks [authorized] first, which refuses a missing token, and
    the request is redirected to the sign-in page. *)
Theorem handler_redirects_anonymous_public_request req :
  isPublicRoute (pathname req) = true →
  middleware req = NextResponse.next None ∧
  (token req = None →
   Js.startsWith (pathname req) "/api/auth" = false →
   Js.startsWith (pathname req) "/_next" = false →
   Js.startsWith (pathname req) "/favicon.ico" = false →
   handler req =
     NextResponse.redirect
       (URL.mk "/api/auth/signin" [("callbackUrl", pathname req +:+ search req)])).
Proof.
  intros Hpub. split; [by apply middleware_public |].
  intros Htok Hapi Hnext Hfav. unfold handler, withAuth.
  rewrite Htok, Hapi. simpl. rewrite Hnext, Hfav. simpl.
  destruct (bool_decide_reflect ("/api/auth/signin" = pathname req)) as [He|_].
  { rewrite <- He in Hapi. discriminate Hapi. }
  destruct (bool_decide_reflect ("/api/auth/error" = pathname req)) as [He|_].
  { rewrite <- He in Hapi. discriminate Hapi. }
  reflexivity.
Qed.

(** C8 (what the code does). A path under the admin prefix or under a
    tenant-scoped prefix starts with a slash, so it is a public route to
    the middleware: an authenticated request for it is let through
    without a redirect, whatever the role and the tenant of the token. *)
Theorem gated_routes_are_let_through req tok :
  token req = Some tok →
  isAdminRoute (pathname req) = true ∨ isTenantRoute (pathname req) = true →
  middleware req = NextResponse.next None ∧
  handler req = NextResponse.next None.
Proof.
  intros Htok Hgated.
  assert (Hpub : isPublicRoute (pathname req) = true).
  { destruct Hgated; [by apply isAdminRoute_public | by apply isTenantRoute_public]. }
  split; [by apply middleware_public |].
  apply handler_authorized; [by rewrite Htok | done].
Qed.

(** C3 (what the code does). An authenticated request for a path that
    starts with a slash is forwarded with the very headers the client
    sent, nothing overwritten; and where the context headers are built,
    a token without a tenant leaves the client's x-tenant-id in place. *)
Theorem client_context_headers_survive req tok :
  token req = Some tok →
  (Js.startsWith (pathname req) "/" = true →
     forwardedHeaders req (handler req) = Some (headers req)) ∧
  (Js.truthy_opt (JWT.tenantId tok) = false →
     contextHeaders tok (headers req) !! "x-tenant-id" = headers req !! "x-tenant-id").
Proof.
  intros Htok. split.
  - intros Hslash. rewrite handler_authorized; [done | by rewrite Htok |].
    by apply isPublicRoute_slash.
  - apply contextHeaders_no_tenant.
Qed.

End MiddlewareProperties.

(** The visitor asking for the blog is sent to the sign-in page. *)
Lemma handler_redirects_anonymous_public_request_witness :
  Middleware.isPublicRoute "/blog" = true ∧
  Middleware.middleware Scenario.blog_request = NextResponse.next None ∧
  Middleware.handler Scenario.blog_request =
    NextResponse.redirect (URL.mk "/api/auth/signin" [("callbackUrl", "/blog")]).
Proof.
  split; [reflexivity |].
  destruct (handler_redirects_anonymous_public_request Scenario.blog_request eq_refl)
    as [Hinner Houter].
  split; [exact Hinner |].
  apply Houter; reflexivity.
Defined.

(** The tenant admin gets the admin page and the viewer without a tenant
    gets the dashboard. *)
Lemma gated_routes_are_let_through_witness :
  (Middleware.isAdminRoute "/admin/tenants" = true ∧
   Middleware.handler Scenario.admin_request = NextResponse.next None) ∧
  (Middleware.isTenantRoute "/dashboard" = true ∧
   Middleware.handler Scenario.dashboard_request = NextResponse.next None).
Proof.
  split; (split; [reflexivity |]).
  - apply (gated_routes_are_let_through Scenario.admin_request
             (JWT.mk "u3" tenant_admin (Some "T1"))); [reflexivity |].
    left. reflexivity.
  - apply (gated_routes_are_let_through Scenario.dashboard_request
             Scenario.viewer_without_tenant); [reflexivity |].
    right. reflexivity.
Defined.

(** The viewer's own context headers reach the API route untouched. *)
Lemma client_context_headers_survive_witness :
  Middleware.forwardedHeaders Scenario.spoofing_request
    (Middleware.handler Scenario.spoofing_request)
  = Some Scenario.spoofed_headers ∧
  Middleware.contextHeaders Scenario.viewer_without_tenant Scenario.spoofed_headers
    !! "x-tenant-id"
  = Scenario.spoofed_headers !! "x-tenant-id".
Proof.
  split.
  - apply (proj1 (client_context_headers_survive Scenario.spoofing_request
                    Scenario.viewer_without_tenant eq_refl)).
    reflexivity.
  - apply (proj2 (client_context_headers_survive Scenario.spoofing_request
                    Scenario.viewer_without_tenant eq_refl)).
    reflexivity.
Defined.

(** What the route handler reads off that request with [getAuthContext]:
    the identity the client claimed, not the viewer's. *)
Example spoofed_context_reaches_the_route :
  Middleware.forwardedHeaders Scenario.spoofing_request
    (Middleware.handler Scenario.spoofing_request)
  ≫= AuthContext.getAuthContext
  = Some {| AuthContext.userId := "u1";
            AuthContext.tenantId := Some "T1";
            AuthContext.role := "platform_admin" |}.
Proof. vm_compute. reflexivity. Qed.

(** Had the context headers been built for the viewer's token, the
    client's tenant id would still be among them. *)
Example spoofed_tenant_survives_contextHeaders :
  Middleware.contextHeaders Scenario.viewer_without_tenant Scenario.spoofed_headers
    !! "x-tenant-id" = Some "T1".
Proof. vm_compute. done. Qed.

(** The route tables at work: the prefix test is per character, so every
    path with a leading slash is public, an admin path included. *)
Example route_classification :
  Middleware.isPublicRoute "/blog/first-post" = true ∧
  Middleware.isPublicRoute "/admin/tenants" = true ∧
  Middleware.isPublicRoute "/api/example" = true ∧
  Middleware.isAdminRoute "/admin/tenants" = true ∧
  Middleware.isAdminRoute "/dashboard" = false ∧
  Middleware.isTenantRoute "/tenant/settings" = true ∧
  Middleware.isPublicRoute "blog" = false.
Proof. repeat split. Qed.

(** * Further properties of the code *)

(** ** lib/rbac.ts *)

Section RbacFurther.
Import Rbac.

(** The platform admin holds every permission there is, so every
    [hasAllPermissions] query succeeds for it. *)
Theorem platform_admin_holds_everything (p : Permission) (ps : list Permission) :
  hasPermission platform_admin p = true ∧
  hasAllPermissions platform_admin ps = true.
Proof.
  assert (Hall : ∀ q, hasPermission platform_admin q = true) by (by intros []).
  split; [apply Hall |].
  unfold hasAllPermissions, Js.every. apply forallb_forall. intros q _. apply Hall.
Qed.

(** The permissions that no tenant role holds are exactly the six of
    platform management. *)
Theorem platform_management_is_admin_only (p : Permission) :
  (∀ role, role ≠ platform_admin → hasPermission role p = false) ↔
  p ∈ [ MANAGE_PLATFORM; MANAGE_ALL_TENANTS; IMPERSONATE_USERS;
        MANAGE_PLATFORM_SETTINGS; MANAGE_BLOG; MANAGE_CHANGELOG ].
Proof.
  split.
  - intros Hnone.
    pose proof (Hnone tenant_owner ltac:(discriminate)) as Ho.
    destruct p; try (vm_compute in Ho; discriminate Ho);
      apply list_elem_of_In; simpl; tauto.
  - intros Hp role Hrole.
    apply list_elem_of_In in Hp. simpl in Hp.
    destruct Hp as [<-|[<-|[<-|[<-|[<-|[<-|[]]]]]]];
      destruct role; try reflexivity; by destruct Hrole.
Qed.

(** Managing the tenant and managing its users go together: both are open
    to the platform admin and the tenant owner, and to nobody else. *)
Theorem canManage_owner_or_admin (role : UserRole) :
  canManageTenant role = (isPlatformAdmin role || isTenantOwner role) ∧
  canManageUsers role = (isPlatformAdmin role || isTenantOwner role).
Proof. by destruct role. Qed.

(** No role lists a permission twice. *)
Theorem getPermissions_NoDup (role : UserRole) : NoDup (getPermissions role).
Proof.
  destruct role; unfold getPermissions, ROLE_PERMISSIONS;
    repeat (apply NoDup_cons; split;
            [rewrite <- includes_elem_of; vm_compute; discriminate |]);
    apply NoDup_nil_2.
Qed.

Lemma hasAllPermissions_true role (ps : list Permission) :
  hasAllPermissions role ps = true ↔ ∀ p, p ∈ ps → hasPermission role p = true.
Proof.
  unfold hasAllPermissions, Js.every. rewrite forallb_forall.
  split; intros H p Hp; apply H; by apply list_elem_of_In.
Qed.

Lemma hasAnyPermission_true role (ps : list Permission) :
  hasAnyPermission role ps = true ↔ ∃ p, p ∈ ps ∧ hasPermission role p = true.
Proof.
  unfold hasAnyPermission, Js.some. rewrite existsb_exists.
  split; intros (p & Hp & Hhas); exists p; split; try done;
    by apply list_elem_of_In.
Qed.

(** The two list queries split over concatenation, agree with
    [hasPermission] on a single permission, and on a non-empty list "all"
    implies "any"; a role has all of its own permissions. *)
Theorem permission_queries_compose role (p : Permission) (ps qs : list Permission) :
  hasAllPermissions role (ps ++ qs)
  = hasAllPermissions role ps && hasAllPermissions role qs ∧
  hasAnyPermission role (ps ++ qs)
  = hasAnyPermission role ps || hasAnyPermission role qs ∧
  hasAllPermissions role [p] = hasPermission role p ∧
  hasAnyPermission role [p] = hasPermission role p ∧
  hasAllPermissions role (getPermissions role) = true ∧
  (ps ≠ [] → hasAllPermissions role ps = true → hasAnyPermission role ps = true).
Proof.
  unfold hasAllPermissions, hasAnyPermission, Js.every, Js.some.
  split; [apply forallb_app |]. split; [apply existsb_app |].
  split; [simpl; apply andb_true_r |]. split; [simpl; apply orb_false_r |].
  split.
  - apply forallb_forall. intros q Hq.
    by apply hasPermission_elem_of, list_elem_of_In.
  - destruct ps as [|q ps]; [done |]. intros _. simpl.
    intros [Hq _]%andb_true_iff. by rewrite Hq.
Qed.

Lemma hasPermission_ladder (p : Permission) :
  (hasPermission tenant_viewer p = true → hasPermission tenant_admin p = true) ∧
  (hasPermission tenant_admin p = true → hasPermission tenant_owner p = true) ∧
  (hasPermission tenant_owner p = true → hasPermission platform_admin p = true).
Proof. destruct p; vm_compute; repeat split; congruence. Qed.

(** A query the viewer passes the tenant admin passes, one the tenant admin
    passes the owner passes, and one the owner passes the platform admin
    passes: for [hasAllPermissions] and for [hasAnyPermission] alike. *)
Theorem permission_queries_follow_the_ladder (ps : list Permission) :
  ((hasAllPermissions tenant_viewer ps = true → hasAllPermissions tenant_admin ps = true) ∧
   (hasAllPermissions tenant_admin ps = true → hasAllPermissions tenant_owner ps = true) ∧
   (hasAllPermissions tenant_owner ps = true → hasAllPermissions platform_admin ps = true)) ∧
  ((hasAnyPermission tenant_viewer ps = true → hasAnyPermission tenant_admin ps = true) ∧
   (hasAnyPermission tenant_admin ps = true → hasAnyPermission tenant_owner ps = true) ∧
   (hasAnyPermission tenant_owner ps = true → hasAnyPermission platform_admin ps = true)).
Proof.
  rewrite !hasAllPermissions_true, !hasAnyPermission_true.
  repeat split.
  1-3: intros H p Hp; by apply hasPermission_ladder, H.
  all: intros (p & Hp & Hhas); exists p; split; [done |];
       by apply hasPermission_ladder.
Qed.

(** Tenant isolation: whoever may reach every tenant is a platform admin,
    and any other caller reaches one tenant at most, its own. *)
Theorem canAccessTenant_isolates (role : UserRole) (caller : option string) :
  ((∀ c target, canAccessTenant role c target = true) ↔ role = platform_admin) ∧
  (role ≠ platform_admin →
   ∀ t1 t2, canAccessTenant role caller t1 = true →
            canAccessTenant role caller t2 = true →
            caller = Some t1 ∧ t1 = t2).
Proof.
  unfold canAccessTenant, isPlatformAdmin, Js.strict_eq. split.
  - split.
    + intros Hall. specialize (Hall None "").
      destruct (decide (role = platform_admin)) as [|Hne]; [done |].
      rewrite (bool_decide_eq_false_2 _ Hne) in Hall.
      by apply bool_decide_eq_true in Hall.
    + by intros -> c target.
  - intros Hne t1 t2. rewrite (bool_decide_eq_false_2 _ Hne).
    intros H1%bool_decide_eq_true H2%bool_decide_eq_true. split; congruence.
Qed.

End RbacFurther.

(** A tenant admin of "T1" reaches "T1" and so cannot reach another tenant. *)
Lemma canAccessTenant_isolates_witness :
  Rbac.canAccessTenant tenant_admin (Some "T1") "T1" = true ∧
  (Some "T1" = Some "T1" ∧ "T1" = "T1").
Proof.
  split; [reflexivity |].
  apply (proj2 (canAccessTenant_isolates tenant_admin (Some "T1"))
           ltac:(discriminate) "T1" "T1"); reflexivity.
Defined.

(** The owner, who has both billing and users, has one of them. *)
Lemma permission_queries_compose_witness :
  Rbac.hasAnyPermission tenant_owner [Rbac.MANAGE_BILLING; Rbac.MANAGE_TENANT_USERS] = true.
Proof.
  apply (permission_queries_compose tenant_owner Rbac.VIEW_ORDERS
           [Rbac.MANAGE_BILLING; Rbac.MANAGE_TENANT_USERS] []);
    [discriminate | reflexivity].
Defined.

(** What the viewer may do the others may do. *)
Lemma permission_queries_follow_the_ladder_witness :
  Rbac.hasAllPermissions tenant_admin [Rbac.VIEW_ORDERS; Rbac.VIEW_AUDIT_LOG] = true ∧
  Rbac.hasAnyPermission platform_admin [Rbac.MANAGE_BILLING] = true.
Proof.
  split.
  - apply (proj1 (proj1 (permission_queries_follow_the_ladder
                           [Rbac.VIEW_ORDERS; Rbac.VIEW_AUDIT_LOG]))).
    reflexivity.
  - apply (proj2 (proj2 (proj2 (permission_queries_follow_the_ladder
                                  [Rbac.MANAGE_BILLING])))).
    reflexivity.
Defined.

(** ** lib/auth.ts: the credentials provider, further *)

Section AuthFurther.
Import Auth.

Variable compare : string → string → bool.
Variable db : Database.

(** The row [findUnique] returns is a stored one and has the email asked
    for, character for character. *)
Lemma findUnique_Some email row :
  findUnique db email = Some row →
  user row ∈ users db ∧ User.email (user row) = email.
Proof.
  unfold findUnique.
  destruct (List.find _ (users db)) as [u|] eqn:Hfind; simpl; [| done].
  intros [= <-]. simpl. apply find_some in Hfind as [Hin Heq].
  split; [by apply list_elem_of_In | by apply String.eqb_eq].
Qed.

(** Every way [authorize] can end, with what it tells about the store. *)
Lemma authorize_cases (c : Credentials) :
  (missing c = true ∧ authorize compare db (Some c) = Throw "Missing credentials") ∨
  (supplied c ∧ findUnique db (email c) = None ∧
   authorize compare db (Some c) = Throw "Invalid credentials") ∨
  (∃ row, supplied c ∧ findUnique db (email c) = Some row ∧
          (∀ digest, ¬ digestSet (user row) digest) ∧
          authorize compare db (Some c) = Throw "Invalid credentials") ∨
  (∃ row digest, supplied c ∧ findUnique db (email c) = Some row ∧
                 digestSet (user row) digest ∧
                 compare (password c) digest = false ∧
                 authorize compare db (Some c) = Throw "Invalid credentials") ∨
  (∃ row digest, supplied c ∧ findUnique db (email c) = Some row ∧
                 digestSet (user row) digest ∧
                 compare (password c) digest = true ∧
                 (authorize compare db (Some c) = Throw "Account is not active" ∨
                  (User.status (user row) = "active" ∧
                   (User.role (user row) = platform_admin ∨
                    ∃ t, tenant row = Some t ∧ Tenant.status t = "active") ∧
                   authorize compare db (Some c)
                   = Resolve {| Identity.id := User.id (user row);
                                Identity.email := User.email (user row);
                                Identity.name := User.name (user row);
                                Identity.role := User.role (user row);
                                Identity.tenantId := User.tenantId (user row) |}))).
Proof.
  destruct (missing c) eqn:Hm.
  { left. split; [done |]. by apply authorize_missing. }
  right. apply missing_false_supplied in Hm.
  destruct (findUnique db (email c)) as [row|] eqn:Hrow.
  2:{ left. split; [done |]. split; [done |]. by apply authorize_unknown. }
  right. destruct (digestSet_dec (user row)) as [[digest Hd] | Hno].
  2:{ left. exists row. repeat (split; [done |]). by eapply authorize_no_digest. }
  right. rewrite (authorize_found _ _ _ _ _ Hm Hrow Hd).
  destruct (compare (password c) digest) eqn:Hv; simpl.
  2:{ left. by exists row, digest. }
  right. exists row, digest. repeat (split; [done |]).
  destruct (String.eqb (User.status (user row)) "active") eqn:Hs; simpl;
    [| by left].
  apply String.eqb_eq in Hs.
  destruct (decide (User.role (user row) = platform_admin)) as [Hr | Hr].
  { rewrite (bool_decide_eq_true_2 _ Hr). simpl. right. split; [done |].
    split; [by left | done]. }
  rewrite (bool_decide_eq_false_2 _ Hr). simpl.
  destruct (tenant_status_not_active (tenant row)) eqn:Ht; [by left |].
  right. split; [done |]. split; [| done].
  right. by apply tenant_status_not_active_false.
Qed.

(** Whoever is signed in is a stored account: the identity returned is that
    of a stored user whose email is the submitted one, whose digest is set
    and verifies the submitted password, whose status is active and, unless
    a platform admin, whose tenant is active. *)
Theorem authorize_sound (c : Credentials) (identity : Identity.t) :
  authorize compare db (Some c) = Resolve identity →
  ∃ row digest,
    findUnique db (email c) = Some row ∧
    user row ∈ users db ∧
    digestSet (user row) digest ∧
    compare (password c) digest = true ∧
    User.status (user row) = "active" ∧
    (User.role (user row) = platform_admin ∨
     ∃ t, tenant row = Some t ∧ Tenant.status t = "active") ∧
    identity = {| Identity.id := User.id (user row);
                  Identity.email := email c;
                  Identity.name := User.name (user row);
                  Identity.role := User.role (user row);
                  Identity.tenantId := User.tenantId (user row) |}.
Proof.
  intros Hres.
  destruct (authorize_cases c)
    as [[_ H] | [(_ & _ & H) | [(row & _ & _ & _ & H) |
        [(row & digest & _ & _ & _ & _ & H) |
         (row & digest & Hc & Hrow & Hd & Hv & [H | (Hs & Ht & H)])]]]];
    rewrite H in Hres; try discriminate Hres.
  injection Hres as <-. exists row, digest.
  destruct (findUnique_Some _ _ Hrow) as [Hin Hemail].
  repeat (split; [done |]). by rewrite Hemail.
Qed.

(** "Account is not active" is told only to a caller who has the password:
    it is thrown only when the account exists and the submitted password
    verifies against its digest. *)
Theorem inactive_only_after_password (c : Credentials) :
  authorize compare db (Some c) = Throw "Account is not active" →
  ∃ row digest,
    findUnique db (email c) = Some row ∧
    digestSet (user row) digest ∧
    compare (password c) digest = true ∧
    (User.status (user row) ≠ "active" ∨
     (User.role (user row) ≠ platform_admin ∧
      ∀ t, tenant row = Some t → Tenant.status t ≠ "active")).
Proof.
  intros Hres.
  destruct (authorize_cases c)
    as [[_ H] | [(_ & _ & H) | [(row & _ & _ & _ & H) |
        [(row & digest & _ & _ & _ & _ & H) |
         (row & digest & Hc & Hrow & Hd & Hv & [_ | (Hs & Ht & H)])]]]];
    try (rewrite H in Hres; discriminate Hres).
  exists row, digest. repeat (split; [done |]).
  rewrite (authorize_found _ _ _ _ _ Hc Hrow Hd), Hv in Hres. simpl in Hres.
  destruct (String.eqb (User.status (user row)) "active") eqn:Hs; simpl in Hres.
  2:{ left. by apply String.eqb_neq. }
  right. destruct (decide (User.role (user row) = platform_admin)) as [Hr | Hr].
  { rewrite (bool_decide_eq_true_2 _ Hr) in Hres. discriminate Hres. }
  split; [done |]. apply tenant_status_not_active_true.
  rewrite (bool_decide_eq_false_2 _ Hr) in Hres. simpl in Hres.
  by destruct (tenant_status_not_active (tenant row)).
Qed.

(** The provider throws three messages and no other; without a credentials
    object it throws "Missing credentials". *)
Theorem authorize_errors (credentials : option Credentials) (message : string) :
  authorize compare db None = Throw "Missing credentials" ∧
  (authorize compare db credentials = Throw message →
   message ∈ ["Missing credentials"; "Invalid credentials"; "Account is not active"]).
Proof.
  split; [reflexivity |].
  destruct credentials as [c|].
  2:{ intros [= <-]. apply list_elem_of_here. }
  intros Hres.
  destruct (authorize_cases c)
    as [[_ H] | [(_ & _ & H) | [(row & _ & _ & _ & H) |
        [(row & digest & _ & _ & _ & _ & H) |
         (row & digest & Hc & Hrow & Hd & Hv & [H | (Hs & Ht & H)])]]]];
    rewrite H in Hres; try discriminate Hres; injection Hres as <-;
    apply list_elem_of_In; simpl; tauto.
Qed.

(** A platform admin whose account is active signs in with the right
    password whatever the state of its tenant, if it has one at all,
    provided the email and the password submitted are not empty; if one of
    them is, the answer is "Missing credentials". *)
Theorem platform_admin_needs_no_tenant (c : Credentials) row digest :
  findUnique db (email c) = Some row →
  digestSet (user row) digest →
  compare (password c) digest = true →
  User.status (user row) = "active" →
  User.role (user row) = platform_admin →
  (supplied c →
   authorize compare db (Some c)
   = Resolve {| Identity.id := User.id (user row);
                Identity.email := User.email (user row);
                Identity.name := User.name (user row);
                Identity.role := platform_admin;
                Identity.tenantId := User.tenantId (user row) |}) ∧
  (¬ supplied c → authorize compare db (Some c) = Throw "Missing credentials").
Proof.
  intros Hrow Hd Hv Hs Hr. split.
  - intros Hc.
    rewrite (authorize_found _ _ _ _ _ Hc Hrow Hd), Hv. simpl.
    apply String.eqb_eq in Hs. rewrite Hs. simpl.
    rewrite (bool_decide_eq_true_2 _ Hr). simpl. by rewrite Hr.
  - intros Hn. by apply authorize_missing, not_supplied_guard.
Qed.

End AuthFurther.

(** ** lib/auth-context.ts *)

Section AuthContextFurther.
Import AuthContext.

Lemma getAuthContext_Some (h : gmap string string) (c : AuthContext) :
  getAuthContext h = Some c ↔
  h !! "x-user-id" = Some (userId c) ∧ userId c ≠ "" ∧
  h !! "x-user-role" = Some (role c) ∧ role c ≠ "" ∧
  tenantId c = h !! "x-tenant-id".
Proof.
  unfold getAuthContext. destruct c as [u t r]. simpl.
  destruct (h !! "x-user-id") as [u'|].
  2:{ split; [by destruct (h !! "x-user-role") | by intros ([=] & _)]. }
  destruct (h !! "x-user-role") as [r'|].
  2:{ split; [discriminate | by intros (_ & _ & [=] & _)]. }
  destruct u' as [|a u'].
  { split; [discriminate | by intros ([= <-] & Hu & _)]. }
  destruct r' as [|b r'].
  { split; [discriminate | by intros (_ & _ & [= <-] & Hr & _)]. }
  simpl. split.
  - intros [= <- <- <-]. done.
  - intros ([= <-] & _ & [= <-] & _ & ->). done.
Qed.

(** [requireAuth] returns a context exactly when the request carries a
    non-empty x-user-id and a non-empty x-user-role, and the context is
    read off the three headers; in every other case, an empty header
    included, it throws "Unauthorized". *)
Theorem requireAuth_headers (h : gmap string string) :
  (∀ c, requireAuth h = Exn.Returns c ↔
        h !! "x-user-id" = Some (userId c) ∧ userId c ≠ "" ∧
        h !! "x-user-role" = Some (role c) ∧ role c ≠ "" ∧
        tenantId c = h !! "x-tenant-id") ∧
  (∀ e, requireAuth h = Exn.Throws e → e = Exn.Error "Unauthorized").
Proof.
  unfold requireAuth. split.
  - intros c. rewrite <- getAuthContext_Some.
    destruct (getAuthContext h); split; congruence.
  - intros e. destruct (getAuthContext h); congruence.
Qed.

(** A context [requireTenant] returns has a non-empty tenant id.  A request
    that is not authenticated is refused as "Unauthorized" before its
    tenant is looked at; an authenticated one without a tenant id, or with
    an empty one, is refused as "No tenant associated with user". *)
Theorem requireTenant_tenant (h : gmap string string) :
  (∀ c, requireTenant h = Exn.Returns c ↔
        requireAuth h = Exn.Returns c ∧
        ∃ t, tenantId c = Some t ∧ t ≠ "") ∧
  (getAuthContext h = None →
   requireTenant h = Exn.Throws (Exn.Error "Unauthorized")) ∧
  (∀ c, getAuthContext h = Some c →
        Js.truthy_opt (h !! "x-tenant-id") = false →
        requireTenant h = Exn.Throws (Exn.Error "No tenant associated with user")).
Proof.
  unfold requireTenant, requireAuth. split; [| split].
  - intros c. destruct (getAuthContext h) as [c'|]; simpl.
    2:{ split; [discriminate | by intros [[=] _]]. }
    destruct (tenantId c') as [[|a t]|] eqn:Ht; simpl.
    + split; [discriminate |]. intros [[= <-] (t & Ht' & Hne)]. congruence.
    + split.
      * intros [= <-]. split; [done |]. by exists (String a t).
      * by intros [[= <-] _].
    + split; [discriminate |]. intros [[= <-] (t & Ht' & _)]. congruence.
  - by intros ->.
  - intros c Hc Hno. rewrite Hc. simpl.
    apply getAuthContext_Some in Hc as (_ & _ & _ & _ & ->). by rewrite Hno.
Qed.

Lemma includes_role_values (roles : list UserRole) (s : string) :
  Js.includes (UserRole_value <$> roles) s = true ↔
  ∃ r, r ∈ roles ∧ s = UserRole_value r.
Proof.
  rewrite includes_elem_of, list_elem_of_fmap.
  split; intros (r & H1 & H2); by exists r.
Qed.

Lemma requireRole_Returns (roles : list UserRole) (h : gmap string string) c :
  requireRole roles h = Exn.Returns c ↔
  requireAuth h = Exn.Returns c ∧ ∃ r, r ∈ roles ∧ role c = UserRole_value r.
Proof.
  unfold requireRole.
  destruct (requireAuth h) as [c'|e]; simpl.
  2:{ split; [discriminate | by intros [[=] _]]. }
  rewrite <- includes_role_values.
  destruct (Js.includes _ (role c')) eqn:Hinc; simpl.
  - split; [by intros [= <-] | by intros [[= <-] _]].
  - split; [discriminate |]. intros [[= <-] Hc]. congruence.
Qed.

(** [requireRole] returns the context exactly when the request is
    authenticated and its role header names one of the required roles;
    with no role required it never returns; [requirePlatformAdmin] returns
    exactly when the role header is "platform_admin". *)
Theorem requireRole_roles (roles : list UserRole) (h : gmap string string) :
  (∀ c, requireRole roles h = Exn.Returns c ↔
        requireAuth h = Exn.Returns c ∧
        ∃ r, r ∈ roles ∧ role c = UserRole_value r) ∧
  (∀ c, requireRole [] h ≠ Exn.Returns c) ∧
  (∀ c, requirePlatformAdmin h = Exn.Returns c ↔
        requireAuth h = Exn.Returns c ∧ role c = "platform_admin").
Proof.
  pose proof (λ rs c, requireRole_Returns rs h c) as Hgen.
  split; [apply Hgen |]. split.
  - intros c [_ (r & Hr & _)]%Hgen. by apply elem_of_nil in Hr.
  - intros c. unfold requirePlatformAdmin. rewrite Hgen. split.
    + intros [Ha (r & ->%list_elem_of_singleton & Hr)]. done.
    + intros [Ha Hr]. split; [done |]. exists platform_admin.
      split; [apply list_elem_of_here | done].
Qed.

(** Requiring more roles refuses nobody who passed before. *)
Theorem requireRole_monotone (roles roles' : list UserRole)
    (h : gmap string string) (c : AuthContext) :
  roles ⊆ roles' →
  requireRole roles h = Exn.Returns c →
  requireRole roles' h = Exn.Returns c.
Proof.
  intros Hsub. rewrite !requireRole_Returns.
  intros [Ha (r & Hr & Hc)]. split; [done |]. exists r. split; [by apply Hsub | done].
Qed.

End AuthContextFurther.

(** ** The context on its way: callbacks, headers, helpers *)

Section ContextFurther.
Import AuthContext AuthCallbacks Middleware.

Lemma UserRole_of_string_Some (s : string) (r : UserRole) :
  ExampleRoute.UserRole_of_string s = Some r ↔ s = UserRole_value r.
Proof.
  split.
  - unfold ExampleRoute.UserRole_of_string.
    destruct (String.eqb_spec s "platform_admin") as [->|_]; [by intros [= <-] |].
    destruct (String.eqb_spec s "tenant_owner") as [->|_]; [by intros [= <-] |].
    destruct (String.eqb_spec s "tenant_admin") as [->|_]; [by intros [= <-] |].
    destruct (String.eqb_spec s "tenant_viewer") as [->|_]; [by intros [= <-] |].
    intros [=].
  - intros ->. by destruct r.
Qed.

(** The role strings name the roles one to one: a role is read back from
    its string, and a string that reads as a role is that role's string. *)
Theorem UserRole_string_round_trip (r : UserRole) (s : string) :
  ExampleRoute.UserRole_of_string (UserRole_value r) = Some r ∧
  (ExampleRoute.UserRole_of_string s = Some r ↔ s = UserRole_value r) ∧
  (∀ r', UserRole_value r = UserRole_value r' → r = r').
Proof.
  split; [by apply UserRole_of_string_Some |].
  split; [apply UserRole_of_string_Some |].
  intros r' Heq. by destruct r, r'.
Qed.

Lemma UserRole_value_truthy r : Js.truthy (UserRole_value r) = true.
Proof. by destruct r. Qed.

(** The headers the middleware builds leave every header but the three of
    the context as the client sent it. *)
Theorem contextHeaders_other_headers tok (h : gmap string string) (k : string) :
  k ≠ "x-user-id" → k ≠ "x-tenant-id" → k ≠ "x-user-role" →
  contextHeaders tok h !! k = h !! k.
Proof.
  intros Hid Hten Hrole. unfold contextHeaders.
  rewrite !lookup_insert_ne by done.
  destruct (JWT.tenantId tok) as [t|]; [| done].
  destruct (Js.truthy t); [| done]. by rewrite lookup_insert_ne.
Qed.

Lemma contextHeaders_lookup tok (h : gmap string string) (k : string) :
  contextHeaders tok h !! k =
    if decide (k = "x-user-role") then Some (UserRole_value (JWT.role tok))
    else if decide (k = "x-user-id") then Some (JWT.id tok)
    else if decide (k = "x-tenant-id") then
      (if Js.truthy_opt (JWT.tenantId tok) then JWT.tenantId tok
       else h !! "x-tenant-id")
    else h !! k.
Proof.
  destruct (decide (k = "x-user-role")) as [->|Hrole].
  { apply contextHeaders_user. }
  destruct (decide (k = "x-user-id")) as [->|Hid].
  { apply contextHeaders_user. }
  destruct (decide (k = "x-tenant-id")) as [->|Hten].
  2:{ by apply contextHeaders_other_headers. }
  destruct (JWT.tenantId tok) as [t|] eqn:Ht; simpl.
  - destruct (Js.truthy t) eqn:Htr.
    + by apply contextHeaders_tenant.
    + apply contextHeaders_no_tenant. by rewrite Ht.
  - apply contextHeaders_no_tenant. by rewrite Ht.
Qed.

(** Building the context headers twice is building them once, and with a
    tenant in the token the three headers owe nothing to what was there
    before: the headers built for a second token hide those of a first. *)
Theorem contextHeaders_overwrite tok tok' (h : gmap string string) :
  contextHeaders tok (contextHeaders tok h) = contextHeaders tok h ∧
  (Js.truthy_opt (JWT.tenantId tok) = true →
   contextHeaders tok (contextHeaders tok' h) = contextHeaders tok h).
Proof.
  split.
  - apply map_eq. intros k. rewrite !contextHeaders_lookup.
    repeat case_decide; try done. by destruct (Js.truthy_opt _).
  - intros Ht. apply map_eq. intros k. rewrite !contextHeaders_lookup, Ht.
    repeat case_decide; done.
Qed.

Lemma getAuthContext_built tok (h : gmap string string) :
  getAuthContext (contextHeaders tok h)
  = if Js.truthy (JWT.id tok)
    then Some {| userId := JWT.id tok;
                 tenantId := if Js.truthy_opt (JWT.tenantId tok)
                             then JWT.tenantId tok else h !! "x-tenant-id";
                 role := UserRole_value (JWT.role tok) |}
    else None.
Proof.
  unfold getAuthContext. rewrite !contextHeaders_lookup. simpl.
  rewrite UserRole_value_truthy. by destruct (Js.truthy (JWT.id tok)).
Qed.

(** What a route handler reads back from the headers the middleware built:
    the token's user id and role, and the token's tenant id if it has one,
    the client's x-tenant-id header otherwise; a token with an empty user
    id reads back as no context at all. *)
Theorem getAuthContext_contextHeaders tok (h : gmap string string) :
  (JWT.id tok ≠ "" →
   getAuthContext (contextHeaders tok h)
   = Some {| userId := JWT.id tok;
             tenantId := if Js.truthy_opt (JWT.tenantId tok) then JWT.tenantId tok
                         else h !! "x-tenant-id";
             role := UserRole_value (JWT.role tok) |}) ∧
  (JWT.id tok = "" → getAuthContext (contextHeaders tok h) = None).
Proof.
  rewrite getAuthContext_built. split.
  - intros Hid. by destruct (JWT.id tok).
  - by intros ->.
Qed.

(** At sign-in the token takes the id, role and tenant of the identity,
    whatever it held; the calls that follow leave it alone; the session
    built from it, and the context a server component reads off that
    session, carry the same three values. *)
Theorem sign_in_reaches_the_session (identity : Identity.t) (token : JWT.t)
    (s : Session) (user : SessionUser) :
  session_user s = Some user →
  jwt (jwt token (Some identity)) None
  = JWT.mk (Identity.id identity) (Identity.role identity) (Identity.tenantId identity) ∧
  getAuthContextFromSession (Some (session s (jwt token (Some identity))))
  = Some {| userId := Identity.id identity;
            tenantId := Identity.tenantId identity;
            role := UserRole_value (Identity.role identity) |} ∧
  (session_user (session s (jwt token (Some identity))) ≫= (Some ∘ session_email))
  = Some (session_email user).
Proof.
  intros Hu. unfold session, getAuthContextFromSession. rewrite Hu. simpl. done.
Qed.

(** The two ways to the context agree for a token with a non-empty user id
    and tenant id: what [getAuthContext] reads from the headers the
    middleware built is what [getAuthContextFromSession] reads from the
    session of that token, whatever headers the client sent. *)
Theorem header_and_session_context_agree tok (h : gmap string string)
    (s : Session) (user : SessionUser) :
  JWT.id tok ≠ "" →
  Js.truthy_opt (JWT.tenantId tok) = true →
  session_user s = Some user →
  getAuthContext (contextHeaders tok h)
  = getAuthContextFromSession (Some (session s tok)).
Proof.
  intros Hid Ht Hu.
  rewrite getAuthContext_built, Ht.
  apply truthy_nonempty in Hid. rewrite Hid.
  unfold session, getAuthContextFromSession. by rewrite Hu.
Qed.

End ContextFurther.

(** ** middleware.ts, further *)

Section MiddlewareFurther.
Import Middleware.

Lemma prefix_app (r p s : string) :
  String.prefix r p = true → String.prefix r (p +:+ s) = true.
Proof.
  revert p. induction r as [|a r IH]; intros p.
  { intros _. by destruct (p +:+ s). }
  destruct p as [|b p]; simpl; [discriminate |].
  destruct (Ascii.ascii_dec a b); [apply IH | discriminate].
Qed.

Lemma some_startsWith_app (routes : list string) (p s : string) :
  Js.some (λ route, Js.startsWith p route) routes = true →
  Js.some (λ route, Js.startsWith (p +:+ s) route) routes = true.
Proof.
  unfold Js.some. rewrite !existsb_exists.
  intros (r & Hr & Hp). exists r. split; [done | by apply prefix_app].
Qed.

Lemma isPublicRoute_startsWith pathname :
  isPublicRoute pathname = Js.startsWith pathname "/".
Proof.
  destruct (Js.startsWith pathname "/") eqn:Hslash.
  { by apply isPublicRoute_slash. }
  unfold isPublicRoute, PUBLIC_ROUTES, Js.some. simpl. rewrite Hslash. simpl.
  repeat match goal with
  | |- context [Js.startsWith pathname (String ?a ?r)] =>
      let E := fresh in
      destruct (Js.startsWith pathname (String a r)) eqn:E;
      [apply startsWith_first in E; congruence | simpl]
  end.
  reflexivity.
Qed.

Lemma gates_closed pathname :
  isPublicRoute pathname = false →
  isAdminRoute pathname = false ∧ isTenantRoute pathname = false.
Proof.
  intros Hpub. split.
  - destruct (isAdminRoute pathname) eqn:E; [| done].
    apply isAdminRoute_public in E. congruence.
  - destruct (isTenantRoute pathname) eqn:E; [| done].
    apply isTenantRoute_public in E. congruence.
Qed.

Lemma prefix_single a (p : string) :
  String.prefix (String a EmptyString) p = true ↔ ∃ rest, p = String a rest.
Proof.
  destruct p as [|b rest]; simpl.
  { split; [discriminate | by intros (r & [=])]. }
  destruct (Ascii.ascii_dec a b) as [<-|Hne].
  - split; [intros _; by exists rest | by destruct rest].
  - split; [discriminate | intros (r & [= <- _]); by destruct Hne].
Qed.

(** The public routes are exactly the paths that begin with a slash. *)
Theorem public_routes_are_all_paths (pathname : string) :
  isPublicRoute pathname = true ↔ ∃ rest, pathname = "/" +:+ rest.
Proof.
  rewrite isPublicRoute_startsWith. unfold Js.startsWith. apply prefix_single.
Qed.

(** The route tables match by string prefix, not by path segment: whatever
    is appended to a public, an admin or a tenant path, the path stays
    what it was. *)
Theorem routes_match_by_prefix (pathname suffix : string) :
  (isPublicRoute pathname = true → isPublicRoute (pathname +:+ suffix) = true) ∧
  (isAdminRoute pathname = true → isAdminRoute (pathname +:+ suffix) = true) ∧
  (isTenantRoute pathname = true → isTenantRoute (pathname +:+ suffix) = true).
Proof.
  split; [apply some_startsWith_app |]. split; [apply some_startsWith_app |].
  unfold isTenantRoute, Js.startsWith.
  intros [H | H]%orb_true_iff; apply orb_true_iff; [left | right];
    by apply prefix_app.
Qed.

(** The middleware amounts to this: a path with a leading slash is let
    through untouched; any other path is redirected to /auth/signin without
    a token and forwarded with the context headers with one.  Neither the
    admin gate nor the tenant gate ever decides. *)
Theorem middleware_without_gates (req : NextRequest) :
  middleware req =
    if Js.startsWith (pathname req) "/" then NextResponse.next None
    else match token req with
         | None =>
             NextResponse.redirect
               (URL.mk "/auth/signin" [("callbackUrl", pathname req)])
         | Some tok =>
             NextResponse.next (Some (contextHeaders tok (headers req)))
         end.
Proof.
  unfold middleware. rewrite <- isPublicRoute_startsWith.
  destruct (isPublicRoute (pathname req)) eqn:Hpub; [done |].
  destruct (gates_closed _ Hpub) as [-> ->]. by destruct (token req).
Qed.

Lemma middleware_token_next req tok :
  token req = Some tok → ∃ h, middleware req = NextResponse.next h.
Proof.
  intros Htok. unfold middleware.
  destruct (isPublicRoute (pathname req)) eqn:Hpub; [by eexists |].
  destruct (gates_closed _ Hpub) as [-> ->]. rewrite Htok. by eexists.
Qed.

(** Through the exported handler a request with a token is never
    redirected, and the one redirect a request without a token can get is
    the library's, to /api/auth/signin: the redirects the middleware itself
    writes (/auth/signin, /dashboard, /auth/error) are never issued. *)
Theorem handler_redirects (req : NextRequest) (url : URL.t) :
  handler req = NextResponse.redirect url →
  token req = None ∧
  url = URL.mk "/api/auth/signin" [("callbackUrl", pathname req +:+ search req)].
Proof.
  unfold handler, withAuth.
  destruct (_ || _); [discriminate |].
  destruct (token req) as [tok|] eqn:Htok; simpl.
  - destruct (middleware_token_next req tok Htok) as [h ->]. discriminate.
  - by intros [= <-].
Qed.

End MiddlewareFurther.

(** ** app/api/example/route.ts *)

Section ExampleRouteFurther.
Import AuthContext ExampleRoute.

Lemma everyone_views_orders role : Rbac.hasPermission role Rbac.VIEW_ORDERS = true.
Proof. by destruct role. Qed.

(** [GET] case by case. *)
Lemma GET_cases (h : gmap string string) :
  GET h =
    match getAuthContext h with
    | None => json (ErrorBody "Unauthorized") (Some 401)
    | Some auth =>
        if Js.truthy_opt (tenantId auth)
        then match UserRole_of_string (role auth) with
             | Some _ => json (SuccessBody "Success" auth) None
             | None => json (ErrorBody "Internal server error") (Some 500)
             end
        else json (ErrorBody "Internal server error") (Some 500)
    end.
Proof.
  unfold GET, GET_try, requireTenant, requireAuth.
  destruct (getAuthContext h) as [auth|]; simpl; [| done].
  destruct (Js.truthy_opt (tenantId auth)); simpl; [| done].
  unfold hasPermission.
  destruct (UserRole_of_string (role auth)) as [r|]; simpl; [| done].
  by rewrite everyone_views_orders.
Qed.

(** The route answers 200, 401 or 500 and never 403: every role there is
    may view orders, and a role string that names no role ends in the
    [catch]. *)
Theorem GET_never_forbidden (h : gmap string string) :
  status (GET h) ∈ [200; 401; 500] ∧ status (GET h) ≠ 403.
Proof.
  rewrite GET_cases.
  destruct (getAuthContext h) as [auth|]; simpl.
  2:{ split; [apply list_elem_of_In; simpl; tauto | discriminate]. }
  destruct (Js.truthy_opt (tenantId auth)), (UserRole_of_string (role auth));
    simpl; (split; [apply list_elem_of_In; simpl; tauto | discriminate]).
Qed.

(** 401 is the answer to exactly the requests without a context; one with
    a context but no tenant id (or an empty one) gets 500 "Internal server
    error", as its "No tenant associated with user" error is not the one
    the [catch] looks for. *)
Theorem GET_unauthorized_or_internal (h : gmap string string) :
  (status (GET h) = 401 ↔ getAuthContext h = None) ∧
  (∀ auth, getAuthContext h = Some auth →
           Js.truthy_opt (tenantId auth) = false →
           GET h = {| status := 500; body := ErrorBody "Internal server error" |}).
Proof.
  rewrite GET_cases. split.
  - destruct (getAuthContext h) as [auth|]; simpl; [| done].
    destruct (Js.truthy_opt (tenantId auth)), (UserRole_of_string (role auth));
      simpl; split; discriminate.
  - intros auth -> ->. reflexivity.
Qed.

(** 200 is the answer to exactly the requests whose headers give a context
    with a tenant id and one of the four role strings, and the body hands
    that context back. *)
Theorem GET_success (h : gmap string string) :
  status (GET h) = 200 ↔
  ∃ auth r, getAuthContext h = Some auth ∧
            Js.truthy_opt (tenantId auth) = true ∧
            role auth = UserRole_value r ∧
            GET h = {| status := 200; body := SuccessBody "Success" auth |}.
Proof.
  rewrite GET_cases.
  destruct (getAuthContext h) as [auth|] eqn:Hctx; simpl.
  2:{ split; [discriminate | by intros (a & r & [=] & _)]. }
  destruct (Js.truthy_opt (tenantId auth)) eqn:Ht.
  2:{ split; [discriminate |]. intros (a & r & [= <-] & Ht' & _). congruence. }
  destruct (UserRole_of_string (role auth)) as [r|] eqn:Hr; simpl.
  - split; [| done]. intros _. exists auth, r.
    split; [done |]. split; [done |].
    split; [by apply UserRole_of_string_Some | done].
  - split; [discriminate |]. intros (a & r & [= <-] & _ & Hrole & _).
    apply UserRole_of_string_Some in Hrole. congruence.
Qed.

(** From the middleware to the route: a request forwarded with the context
    headers of a token that has a user id and a tenant id is answered 200
    with the token's identity, whatever its role and whatever headers the
    client sent. *)
Theorem GET_after_contextHeaders tok (h : gmap string string) tenant :
  JWT.id tok ≠ "" →
  JWT.tenantId tok = Some tenant → tenant ≠ "" →
  GET (Middleware.contextHeaders tok h)
  = {| status := 200;
       body := SuccessBody "Success"
                 {| userId := JWT.id tok;
                    tenantId := Some tenant;
                    role := UserRole_value (JWT.role tok) |} |}.
Proof.
  intros Hid Ht Hne. apply truthy_nonempty in Hid, Hne.
  rewrite GET_cases, getAuthContext_built, Hid, Ht. simpl.
  rewrite !Hne. simpl. rewrite ?Hne.
  by rewrite (proj2 (UserRole_of_string_Some _ _) eq_refl).
Qed.

End ExampleRouteFurther.

(** ** The further properties at work *)

(** Alice's sign-in, read backwards. *)
Lemma authorize_sound_witness :
  ∃ row digest,
    Auth.findUnique Scenario.db "alice@example.com" = Some row ∧
    Auth.user row ∈ Auth.users Scenario.db ∧
    Auth.digestSet (Auth.user row) digest ∧
    Scenario.compare "secret" digest = true ∧
    User.status (Auth.user row) = "active" ∧
    (User.role (Auth.user row) = platform_admin ∨
     ∃ t, Auth.tenant row = Some t ∧ Tenant.status t = "active") ∧
    Identity.mk "u1" "alice@example.com" (Some "Alice") tenant_owner (Some "T1")
    = {| Identity.id := User.id (Auth.user row);
         Identity.email := "alice@example.com";
         Identity.name := User.name (Auth.user row);
         Identity.role := User.role (Auth.user row);
         Identity.tenantId := User.tenantId (Auth.user row) |}.
Proof.
  apply (authorize_sound Scenario.compare Scenario.db
           {| Auth.email := "alice@example.com"; Auth.password := "secret" |}).
  reflexivity.
Defined.

(** Carol's tenant is suspended, Dave's account is inactive: both are told
    so, with their passwords. *)
Lemma inactive_only_after_password_witness :
  (∃ row digest,
     Auth.findUnique Sample.db "carol@example.com" = Some row ∧
     Auth.digestSet (Auth.user row) digest ∧
     Scenario.compare "pass" digest = true ∧
     (User.status (Auth.user row) ≠ "active" ∨
      (User.role (Auth.user row) ≠ platform_admin ∧
       ∀ t, Auth.tenant row = Some t → Tenant.status t ≠ "active"))) ∧
  Auth.authorize Scenario.compare Sample.db
    (Some {| Auth.email := "dave@example.com"; Auth.password := "dave" |})
  = Auth.Throw "Account is not active".
Proof.
  split; [| reflexivity].
  apply (inactive_only_after_password Scenario.compare Sample.db
           {| Auth.email := "carol@example.com"; Auth.password := "pass" |}).
  reflexivity.
Defined.

(** Dave's wrong password is an invalid credential, one of the three. *)
Lemma authorize_errors_witness :
  "Invalid credentials"
  ∈ ["Missing credentials"; "Invalid credentials"; "Account is not active"].
Proof.
  apply (proj2 (authorize_errors Scenario.compare Sample.db
                  (Some {| Auth.email := "dave@example.com"; Auth.password := "x" |})
                  "Invalid credentials")).
  reflexivity.
Defined.

(** Root has no tenant and signs in. *)
Lemma platform_admin_needs_no_tenant_witness :
  Auth.authorize Scenario.compare Sample.db
    (Some {| Auth.email := "root@example.com"; Auth.password := "toor" |})
  = Auth.Resolve (Identity.mk "u0" "root@example.com" None platform_admin None).
Proof.
  pose proof (platform_admin_needs_no_tenant Scenario.compare Sample.db
                {| Auth.email := "root@example.com"; Auth.password := "toor" |}
                {| Auth.user := Sample.root; Auth.tenant := None |} "digest:toor")
    as Hthm.
  apply Hthm.
  - reflexivity.
  - split; [reflexivity | discriminate].
  - reflexivity.
  - reflexivity.
  - reflexivity.
  - split; discriminate.
Defined.

(** Headers with a user id and a role but no tenant id: authenticated,
    without a tenant. *)
Lemma requireAuth_headers_witness :
  AuthContext.requireAuth Sample.headers_without_tenant
  = Exn.Returns {| AuthContext.userId := "u1";
                   AuthContext.tenantId := None;
                   AuthContext.role := "tenant_owner" |} ∧
  Exn.Error "Unauthorized" = Exn.Error "Unauthorized".
Proof.
  split.
  - apply (proj1 (requireAuth_headers Sample.headers_without_tenant)).
    vm_compute. repeat split; discriminate.
  - apply (proj2 (requireAuth_headers ∅) (Exn.Error "Unauthorized")).
    reflexivity.
Defined.

Lemma requireTenant_tenant_witness :
  AuthContext.requireTenant ∅ = Exn.Throws (Exn.Error "Unauthorized") ∧
  AuthContext.requireTenant Sample.headers_without_tenant
  = Exn.Throws (Exn.Error "No tenant associated with user").
Proof.
  split.
  - apply (proj1 (proj2 (requireTenant_tenant ∅))). reflexivity.
  - apply (proj2 (proj2 (requireTenant_tenant Sample.headers_without_tenant))
             {| AuthContext.userId := "u1";
                AuthContext.tenantId := None;
                AuthContext.role := "tenant_owner" |});
      reflexivity.
Defined.

Lemma requireRole_monotone_witness :
  AuthContext.requireRole [tenant_admin; tenant_owner] Sample.headers_without_tenant
  = Exn.Returns {| AuthContext.userId := "u1";
                   AuthContext.tenantId := None;
                   AuthContext.role := "tenant_owner" |}.
Proof.
  apply (requireRole_monotone [tenant_owner] [tenant_admin; tenant_owner]).
  - intros r ->%list_elem_of_singleton. apply list_elem_of_In. simpl. tauto.
  - reflexivity.
Defined.

(** The client's accept header passes through the middleware's headers. *)
Lemma contextHeaders_other_headers_witness :
  Middleware.contextHeaders Sample.owner_token (<["accept" := "text/html"]> ∅)
    !! "accept"
  = (<["accept" := "text/html"]> ∅ : gmap string string) !! "accept".
Proof.
  apply (contextHeaders_other_headers Sample.owner_token
           (<["accept" := "text/html"]> ∅) "accept"); discriminate.
Defined.

(** The owner's headers hide those built for a stale token. *)
Lemma contextHeaders_overwrite_witness :
  Middleware.contextHeaders Sample.owner_token
    (Middleware.contextHeaders Sample.stale_token Scenario.spoofed_headers)
  = Middleware.contextHeaders Sample.owner_token Scenario.spoofed_headers.
Proof.
  apply (proj2 (contextHeaders_overwrite Sample.owner_token Sample.stale_token
                  Scenario.spoofed_headers)).
  reflexivity.
Defined.

(** The owner's context read back from the headers the middleware would
    build over the spoofed ones; a token without a user id reads back as
    nothing. *)
Lemma getAuthContext_contextHeaders_witness :
  AuthContext.getAuthContext
    (Middleware.contextHeaders Sample.owner_token Scenario.spoofed_headers)
  = Some {| AuthContext.userId := "u1";
            AuthContext.tenantId := Some "T1";
            AuthContext.role := "tenant_owner" |} ∧
  AuthContext.getAuthContext
    (Middleware.contextHeaders (JWT.mk "" tenant_owner (Some "T1")) ∅)
  = None.
Proof.
  split.
  - apply (proj1 (getAuthContext_contextHeaders Sample.owner_token
                    Scenario.spoofed_headers)).
    discriminate.
  - apply (proj2 (getAuthContext_contextHeaders (JWT.mk "" tenant_owner (Some "T1")) ∅)).
    reflexivity.
Defined.

(** Alice's identity reaches her session. *)
Lemma sign_in_reaches_the_session_witness :
  AuthContext.getAuthContextFromSession
    (Some (AuthCallbacks.session Sample.fresh_session
             (AuthCallbacks.jwt Sample.stale_token (Some Sample.owner_identity))))
  = Some {| AuthContext.userId := "u1";
            AuthContext.tenantId := Some "T1";
            AuthContext.role := "tenant_owner" |}.
Proof.
  refine (proj1 (proj2 (sign_in_reaches_the_session Sample.owner_identity
                          Sample.stale_token Sample.fresh_session _ eq_refl))).
Defined.

Lemma header_and_session_context_agree_witness :
  AuthContext.getAuthContext
    (Middleware.contextHeaders Sample.owner_token Scenario.spoofed_headers)
  = AuthContext.getAuthContextFromSession
      (Some (AuthCallbacks.session Sample.fresh_session Sample.owner_token)).
Proof.
  refine (header_and_session_context_agree Sample.owner_token
            Scenario.spoofed_headers Sample.fresh_session _ _ eq_refl eq_refl).
  discriminate.
Defined.

(** "/blogger" is public and "/administrator" is an admin path. *)
Lemma routes_match_by_prefix_witness :
  Middleware.isPublicRoute "/blogger" = true ∧
  Middleware.isAdminRoute "/administrator" = true ∧
  Middleware.isTenantRoute "/tenantless" = true.
Proof.
  split; [| split].
  - apply (proj1 (routes_match_by_prefix "/blog" "ger")). reflexivity.
  - apply (proj1 (proj2 (routes_match_by_prefix "/admin" "istrator"))). reflexivity.
  - apply (proj2 (proj2 (routes_match_by_prefix "/tenant" "less"))). reflexivity.
Defined.

(** The visitor of the blog has no token and is sent to the library's
    sign-in page. *)
Lemma handler_redirects_witness :
  Middleware.token Scenario.blog_request = None ∧
  URL.mk "/api/auth/signin" [("callbackUrl", "/blog")]
  = URL.mk "/api/auth/signin"
      [("callbackUrl", Middleware.pathname Scenario.blog_request
                       +:+ Middleware.search Scenario.blog_request)].
Proof.
  apply (handler_redirects Scenario.blog_request
           (URL.mk "/api/auth/signin" [("callbackUrl", "/blog")])).
  reflexivity.
Defined.

(** No headers: 401.  A user and a role but no tenant: 500. *)
Lemma GET_unauthorized_or_internal_witness :
  ExampleRoute.status (ExampleRoute.GET ∅) = 401 ∧
  ExampleRoute.GET Sample.headers_without_tenant
  = {| ExampleRoute.status := 500;
       ExampleRoute.body := ExampleRoute.ErrorBody "Internal server error" |}.
Proof.
  split.
  - apply (proj1 (GET_unauthorized_or_internal ∅)). reflexivity.
  - apply (proj2 (GET_unauthorized_or_internal Sample.headers_without_tenant)
             {| AuthContext.userId := "u1";
                AuthContext.tenantId := None;
                AuthContext.role := "tenant_owner" |});
      reflexivity.
Defined.

(** The owner's request, forwarded with the middleware's headers. *)
Lemma GET_after_contextHeaders_witness :
  ExampleRoute.GET
    (Middleware.contextHeaders Sample.owner_token Scenario.spoofed_headers)
  = {| ExampleRoute.status := 200;
       ExampleRoute.body :=
         ExampleRoute.SuccessBody "Success"
           {| AuthContext.userId := "u1";
              AuthContext.tenantId := Some "T1";
              AuthContext.role := "tenant_owner" |} |}.
Proof.
  apply (GET_after_contextHeaders Sample.owner_token Scenario.spoofed_headers "T1");
    [discriminate | reflexivity | discriminate].
Defined.
